(** * ABFRL backend: checkout service and simulated payment gateway

    A shallow embedding of [backend/payment_gateway.py] and
    [backend/checkout_service.py].

    - Python [float] is IEEE-754 binary64: it is modelled by Rocq's primitive
      floats, whose operations are the same correctly rounded ones.
    - Python [int] is [Z]; [str] is [string], read as ASCII text.
    - A [dict] is a [gmap]; a table queried by primary key is a [gmap Z _],
      a table that is iterated is a [list] in iteration order.
    - The SQLAlchemy session is a pair of stores: the committed one and the
      working one that queries and attribute writes go through; [commit]
      copies the working store over the committed one, [rollback] the
      reverse.
    - [random], [uuid] and [datetime.now] are read from an environment
      record, so every run of the code is the model at some environment. *)

From Stdlib Require Import ZArith String Ascii List Bool Lia.
From Stdlib Require Import Uint63 PrimFloat SpecFloat FloatOps FloatAxioms DecimalString.
From stdpp Require Import gmap strings.

#[local] Set Warnings "-inexact-float".
#[local] Open Scope Z_scope.

(** ** Python primitives used by the two modules *)

Module Py.

(** [int -> float] conversion.  The integers converted here are column
    values (a 32-bit quantity, the hundredths of a [DECIMAL(10, 2)]), far
    below [2^53], where the conversion is exact. *)
Definition float_of_Z (z : Z) : float :=
  if (z <? 0)%Z
  then PrimFloat.opp (PrimFloat.of_uint63 (Uint63.of_Z (- z)))
  else PrimFloat.of_uint63 (Uint63.of_Z z).

(** [float(d)] for a [Decimal] with two places, held as its number of
    hundredths: the double nearest to [cents / 100]. *)
Definition float_of_decimal2 (cents : Z) : float :=
  PrimFloat.div (float_of_Z cents) (float_of_Z 100).

(** [int(x)] on a float: truncation toward zero; [inl] carries the text of
    the [OverflowError] (infinities) or [ValueError] (NaN) Python raises. *)
Definition int_of_float (x : float) : string + Z :=
  match Prim2SF x with
  | S754_zero _ => inr 0
  | S754_infinity _ => inl "cannot convert float infinity to integer"%string
  | S754_nan => inl "cannot convert float NaN to integer"%string
  | S754_finite s m e =>
      let a := if (0 <=? e)%Z then Z.pos m * 2 ^ e else Z.pos m / 2 ^ (- e) in
      inr (if s then - a else a)
  end.

(** The integer nearest to [num / den], ties to even ([0 < den]). *)
Definition round_half_even (num den : Z) : Z :=
  let q := num / den in
  let r := num mod den in
  match (2 * r ?= den)%Z with
  | Lt => q
  | Gt => q + 1
  | Eq => if Z.even q then q else q + 1
  end.

(** Hundredths of [|x|], rounded half to even on the exact binary value. *)
Definition abs_cents (m : positive) (e : Z) : Z :=
  if (0 <=? e)%Z then Z.pos m * 2 ^ e * 100
  else round_half_even (Z.pos m * 100) (2 ^ (- e)).

(** [str(n)] for an int. *)
Definition str_of_Z (z : Z) : string := NilZero.string_of_int (Z.to_int z).

Definition two_digits (n : Z) : string :=
  if (n <? 10)%Z then String "0" (str_of_Z n) else str_of_Z n.

Definition fixed2 (neg : bool) (cents : Z) : string :=
  String.append (if neg then "-" else EmptyString)
    (String.append (str_of_Z (cents / 100))
       (String "." (two_digits (cents mod 100)))).

(** [f"{x:.2f}"] for a float. *)
Definition format_2f (x : float) : string :=
  match Prim2SF x with
  | S754_zero s => fixed2 s 0
  | S754_infinity s => if s then "-inf" else "inf"
  | S754_nan => "nan"
  | S754_finite s m e => fixed2 s (abs_cents m e)
  end.

(** [round(x, 2)]: the double nearest to the two-place decimal nearest to
    [x]; a float without fractional part, an infinity and NaN are returned
    as they are.  Exact for [|x| < 2^53 / 100], which covers every amount a
    [DECIMAL(10, 2)] column holds. *)
Definition round2 (x : float) : float :=
  match Prim2SF x with
  | S754_finite s m e =>
      if (0 <=? e)%Z then x
      else
        let r := float_of_decimal2 (abs_cents m e) in
        if s then PrimFloat.opp r else r
  | _ => x
  end.

Definition is_digit (a : ascii) : bool :=
  let n := nat_of_ascii a in ((48 <=? n) && (n <=? 57))%nat.

Definition digit_val (a : ascii) : Z := Z.of_nat (nat_of_ascii a) - 48.

(** ASCII white space as [str.strip] and [int] see it. *)
Definition is_space (a : ascii) : bool :=
  let n := nat_of_ascii a in
  ((9 <=? n) && (n <=? 13) || (28 <=? n) && (n <=? 32))%nat.

(** [s.isdigit()]: non-empty and every character a digit. *)
Fixpoint all_digits (s : string) : bool :=
  match s with
  | EmptyString => true
  | String c r => is_digit c && all_digits r
  end.

Definition isdigit (s : string) : bool :=
  match s with
  | EmptyString => false
  | _ => all_digits s
  end.

Fixpoint lstrip (s : string) : string :=
  match s with
  | String c r => if is_space c then lstrip r else s
  | EmptyString => s
  end.

Fixpoint all_space (s : string) : bool :=
  match s with
  | EmptyString => true
  | String c r => is_space c && all_space r
  end.

(** The digits of an [int] literal, entered just after a digit: digits, or
    one underscore followed by a digit; what follows must be white space. *)
Fixpoint int_digits (acc : Z) (s : string) : option Z :=
  match s with
  | EmptyString => Some acc
  | String c r =>
      if is_digit c then int_digits (acc * 10 + digit_val c) r
      else if Ascii.eqb c "_" then
        match r with
        | String c' r' =>
            if is_digit c' then int_digits (acc * 10 + digit_val c') r'
            else None
        | EmptyString => None
        end
      else if all_space s then Some acc else None
  end.

Definition int_unsigned (s : string) : option Z :=
  match s with
  | String c r => if is_digit c then int_digits (digit_val c) r else None
  | EmptyString => None
  end.

(** [int(s)] for a string, base ten; [None] is [ValueError]. *)
Definition int_of_string (s : string) : option Z :=
  match lstrip s with
  | String c r =>
      if Ascii.eqb c "-" then Z.opp <$> int_unsigned r
      else if Ascii.eqb c "+" then int_unsigned r
      else int_unsigned (String c r)
  | EmptyString => None
  end.

(** [s.startswith(p)]. *)
Definition startswith (p s : string) : bool := String.prefix p s.

(** The values a card-details dictionary decoded from JSON holds here:
    strings and integers. *)
Inductive value : Type :=
  | VStr (s : string)
  | VInt (z : Z).

Definition str (v : value) : string :=
  match v with
  | VStr s => s
  | VInt z => str_of_Z z
  end.

Definition int (v : value) : option Z :=
  match v with
  | VStr s => int_of_string s
  | VInt z => Some z
  end.

End Py.

(** ** payment_gateway.py *)

Module PaymentGateway.

(** [class PaymentStatus(Enum)] and its [.value]. *)
Inductive PaymentStatus : Type :=
  | PENDING
  | SUCCESS
  | FAILED
  | REFUNDED
  | CANCELLED.

Definition status_value (s : PaymentStatus) : string :=
  match s with
  | PENDING => "pending"
  | SUCCESS => "success"
  | FAILED => "failed"
  | REFUNDED => "refunded"
  | CANCELLED => "cancelled"
  end.

Definition status_eqb (a b : PaymentStatus) : bool :=
  match a, b with
  | PENDING, PENDING | SUCCESS, SUCCESS | FAILED, FAILED
  | REFUNDED, REFUNDED | CANCELLED, CANCELLED => true
  | _, _ => false
  end.

(** What a call reads from outside the program: the clock, the UUID
    generator and the random generator. *)
Record Env : Type := {
  now_year : Z;              (* datetime.now().year *)
  now_month : Z;             (* datetime.now().month *)
  today : string;            (* datetime.now().strftime('%Y%m%d') *)
  order_uuid : string;       (* str(uuid.uuid4())[:8].upper(), order number *)
  txn_uuid : string;         (* str(uuid.uuid4())[:8].upper(), transaction *)
  random_value : float;      (* random.random() in process_payment *)
  reason_index : nat;        (* the index random.choice draws *)
  refund_random : float;     (* random.random() in refund_payment *)
  db_error_text : string     (* str(e) of an error raised by the database *)
}.

(** [self.success_rate], [self.failure_rate], [self.timeout_rate]. *)
Definition success_rate : float := 0.85%float.
Definition failure_rate : float := 0.10%float.
Definition timeout_rate : float := 0.05%float.

(** One entry of the catalogue of payment methods. *)
Record MethodInfo : Type := {
  name : string;
  description : string;
  min_amount : float;
  max_amount : float
}.

Definition get_supported_payment_methods : gmap string MethodInfo :=
  <["credit_card" := {| name := "Credit Card";
      description := "Visa, MasterCard, American Express";
      min_amount := 10%float; max_amount := 50000%float |}]>
  (<["debit_card" := {| name := "Debit Card";
      description := "Visa, MasterCard, Rupay";
      min_amount := 10%float; max_amount := 25000%float |}]>
  (<["net_banking" := {| name := "Net Banking";
      description := "Direct bank transfer";
      min_amount := 100%float; max_amount := 100000%float |}]>
  (<["upi" := {| name := "UPI";
      description := "Unified Payments Interface";
      min_amount := 1%float; max_amount := 100000%float |}]>
  (<["wallet" := {| name := "Digital Wallet";
      description := "Paytm, PhonePe, Google Pay";
      min_amount := 1%float; max_amount := 50000%float |}]> ∅)))).

(** [k in d] for a dict. *)
Definition mem {A} (k : string) (d : gmap string A) : bool :=
  match d !! k with
  | Some _ => true
  | None => false
  end.

(** [payment_method in ['credit_card', 'debit_card']]. *)
Definition is_card_method (payment_method : string) : bool :=
  String.eqb payment_method "credit_card"
  || String.eqb payment_method "debit_card".

(** Truth value of an [Optional[Dict]]: [None] and the empty dict are
    false. *)
Definition truthy (card_details : option (gmap string Py.value)) : bool :=
  match card_details with
  | Some d => negb (bool_decide (d = ∅))
  | None => false
  end.

Definition required_fields : list string :=
  ["card_number"; "expiry_month"; "expiry_year"; "cvv"]%string.

Definition field (card_details : gmap string Py.value) (k : string) : Py.value :=
  default (Py.VStr EmptyString) (card_details !! k).

(** The [try] block of [validate_card_details]: [None] is the [ValueError]
    of either [int(...)], [Some (Some msg)] a rejection, [Some None] falls
    through to the CVV check. *)
Definition check_expiry (env : Env) (card_details : gmap string Py.value)
  : option (option string) :=
  match Py.int (field card_details "expiry_month") with
  | None => None
  | Some expiry_month =>
    match Py.int (field card_details "expiry_year") with
    | None => None
    | Some expiry_year =>
        if negb ((1 <=? expiry_month) && (expiry_month <=? 12))
        then Some (Some "Invalid expiry month"%string)
        else
          let current_year := now_year env in
          if (expiry_year <? current_year)
             || ((expiry_year =? current_year) && (expiry_month <? now_month env))
          then Some (Some "Card has expired"%string)
          else Some None
    end
  end.

Definition validate_card_details (env : Env) (card_details : gmap string Py.value)
  : bool * string :=
  match List.find (fun f => negb (mem f card_details)) required_fields with
  | Some f => (false, String.append "Missing required field: " f)
  | None =>
    let card_number := Py.str (field card_details "card_number") in
    if negb (Py.isdigit card_number) || negb (String.length card_number =? 16)%nat
    then (false, "Invalid card number format"%string)
    else
      match check_expiry env card_details with
      | None => (false, "Invalid expiry date format"%string)
      | Some (Some msg) => (false, msg)
      | Some None =>
        let cvv := Py.str (field card_details "cvv") in
        if negb (Py.isdigit cvv)
           || negb ((3 <=? String.length cvv) && (String.length cvv <=? 4))%nat
        then (false, "Invalid CVV format"%string)
        else (true, "Card details valid"%string)
      end
  end.

Definition failure_reasons : list string :=
  ["Insufficient funds"; "Card declined by bank"; "Invalid card details";
   "Security verification failed"; "Bank system temporarily unavailable"]%string.

(** [f"TXN-{datetime.now().strftime('%Y%m%d')}-{str(uuid.uuid4())[:8].upper()}"]. *)
Definition new_transaction_id (env : Env) : string :=
  String.append "TXN-" (String.append (today env) (String.append "-" (txn_uuid env))).

(** The draw at the end of [process_payment]. *)
Definition select_outcome (env : Env) (transaction_id : string)
  : PaymentStatus * string * option string :=
  if PrimFloat.ltb (random_value env) success_rate
  then (SUCCESS, "Payment successful"%string, Some transaction_id)
  else if PrimFloat.ltb (random_value env) (PrimFloat.add success_rate failure_rate)
  then (FAILED,
        nth (reason_index env mod length failure_reasons) failure_reasons EmptyString,
        Some transaction_id)
  else (FAILED, "Payment processing timeout"%string, Some transaction_id).

Definition process_payment (env : Env) (amount : float) (payment_method : string)
    (card_details : option (gmap string Py.value))
  : PaymentStatus * string * option string :=
  if PrimFloat.leb amount 0%float
  then (FAILED, "Invalid payment amount"%string, None)
  else if negb (mem payment_method get_supported_payment_methods)
  then (FAILED, String.append "Unsupported payment method: " payment_method, None)
  else
    let rejected :=
      if is_card_method payment_method && truthy card_details
      then
        let '(is_valid, message) :=
          validate_card_details env (default ∅ card_details) in
        if negb is_valid then Some message else None
      else None in
    match rejected with
    | Some message =>
        (FAILED, String.append "Invalid card details: " message, None)
    | None => select_outcome env (new_transaction_id env)
    end.

(** The three characters the source has between "Refund of " and the
    amount. *)
Definition currency_mark : string :=
  String (ascii_of_nat 195) (String (ascii_of_nat 162)
  (String (ascii_of_nat 226) (String (ascii_of_nat 128) (String (ascii_of_nat 154)
  (String (ascii_of_nat 194) (String (ascii_of_nat 185) EmptyString)))))).

Definition refund_payment (env : Env) (transaction_id : option string) (amount : float)
  : PaymentStatus * string :=
  if match transaction_id with
     | None => true
     | Some t => String.eqb t EmptyString || negb (Py.startswith "TXN-" t)
     end
  then (FAILED, "Invalid transaction ID"%string)
  else if PrimFloat.leb amount 0%float
  then (FAILED, "Invalid refund amount"%string)
  else if PrimFloat.ltb (refund_random env) 0.95%float
  then (REFUNDED,
        String.append "Refund of "
          (String.append currency_mark
             (String.append (Py.format_2f amount) " processed successfully")))
  else (FAILED, "Refund processing failed"%string).

End PaymentGateway.

(** ** db.py: the tables the checkout service reads and writes

    Only the columns the service touches are kept.  A [DECIMAL(10, 2)]
    price is held as its number of hundredths; the monetary columns of an
    order hold the float the service assigns to them (the rounding the
    database engine applies when it stores them is not modelled). *)

Module User.
Record t : Type := { id : Z; loyalty_score : Z }.
End User.

Module Product.
Record t : Type := { id : Z; product_name : string; price : Z; stock : Z }.
Definition set_stock (p : t) (n : Z) : t :=
  {| id := id p; product_name := product_name p; price := price p; stock := n |}.
End Product.

Module Cart.
Record t : Type := { id : Z; user_id : Z; product_id : Z; quantity : Z }.
End Cart.

Module Order.
Record t : Type := {
  id : Z;
  order_number : string;
  user_id : Z;
  total_amount : float;
  tax_amount : float;
  shipping_amount : float;
  discount_amount : float;
  final_amount : float;
  payment_status : string;
  payment_method : string;
  transaction_id : option string;
  shipping_address : string;
  billing_address : string;
  order_status : string;
  notes : option string
}.

(** The three attributes the service assigns after creation. *)
Definition update (o : t) (ps : string) (txn : option string) (os : string) : t :=
  {| id := id o; order_number := order_number o; user_id := user_id o;
     total_amount := total_amount o; tax_amount := tax_amount o;
     shipping_amount := shipping_amount o; discount_amount := discount_amount o;
     final_amount := final_amount o;
     payment_status := ps; payment_method := payment_method o;
     transaction_id := txn;
     shipping_address := shipping_address o; billing_address := billing_address o;
     order_status := os; notes := notes o |}.
End Order.

Module OrderItem.
Record t : Type := {
  order_id : Z;
  product_id : Z;
  product_name : string;
  quantity : Z;
  unit_price : float;
  total_price : float
}.
End OrderItem.

Module Db.

Record Store : Type := {
  users : gmap Z User.t;
  products : gmap Z Product.t;
  carts : list Cart.t;
  orders : gmap Z Order.t;
  order_items : list OrderItem.t
}.

Definition set_users (d : Store) (u : gmap Z User.t) : Store :=
  {| users := u; products := products d; carts := carts d;
     orders := orders d; order_items := order_items d |}.
Definition set_products (d : Store) (p : gmap Z Product.t) : Store :=
  {| users := users d; products := p; carts := carts d;
     orders := orders d; order_items := order_items d |}.
Definition set_carts (d : Store) (c : list Cart.t) : Store :=
  {| users := users d; products := products d; carts := c;
     orders := orders d; order_items := order_items d |}.
Definition set_orders (d : Store) (o : gmap Z Order.t) : Store :=
  {| users := users d; products := products d; carts := carts d;
     orders := o; order_items := order_items d |}.
Definition set_order_items (d : Store) (i : list OrderItem.t) : Store :=
  {| users := users d; products := products d; carts := carts d;
     orders := orders d; order_items := i |}.

(** A session: what the database holds, and the view of the transaction in
    progress. *)
Record Session : Type := { committed : Store; working : Store }.

Definition write (s : Session) (d : Store) : Session :=
  {| committed := committed s; working := d |}.
Definition commit (s : Session) : Session :=
  {| committed := working s; working := working s |}.
Definition rollback (s : Session) : Session :=
  {| committed := committed s; working := committed s |}.

(** The key an auto-increment primary key gives the next row. *)
Definition next_id {A} (m : gmap Z A) : Z :=
  1 + map_fold (fun k _ acc => Z.max k acc) 0 m.

End Db.

(** ** checkout_service.py *)

Module CheckoutService.

Import PaymentGateway Db.

(** Exceptions: [CheckoutError] and every other exception, each with the
    text [str(e)] gives. *)
Inductive exn : Type :=
  | CheckoutError (msg : string)
  | OtherError (msg : string).

Definition exn_str (e : exn) : string :=
  match e with
  | CheckoutError msg => msg
  | OtherError msg => msg
  end.

(** An entry of ['valid_items']. *)
Record ValidItem : Type := {
  cart_item : Cart.t;
  product : Product.t;
  item_total : float
}.

(** An entry of ['invalid_items']; the keys only the stock entry has are
    optional. *)
Record InvalidItem : Type := {
  cart_item_id : Z;
  product_name : option string;
  available_stock : option Z;
  requested_quantity : option Z;
  reason : string
}.

Record Validation : Type := {
  valid_items : list ValidItem;
  invalid_items : list InvalidItem;
  total_amount : float;
  item_count : Z
}.

(** The body of the loop of [validate_cart_items]. *)
Definition validate_step (d : Store) (validation_result : Validation) (c : Cart.t)
  : Validation :=
  match products d !! Cart.product_id c with
  | None =>
      {| valid_items := valid_items validation_result;
         invalid_items := invalid_items validation_result ++
           [ {| cart_item_id := Cart.id c; product_name := None;
                available_stock := None; requested_quantity := None;
                reason := "Product not found" |} ];
         total_amount := total_amount validation_result;
         item_count := item_count validation_result |}
  | Some p =>
      if Product.stock p <? Cart.quantity c then
        {| valid_items := valid_items validation_result;
           invalid_items := invalid_items validation_result ++
             [ {| cart_item_id := Cart.id c;
                  product_name := Some (Product.product_name p);
                  available_stock := Some (Product.stock p);
                  requested_quantity := Some (Cart.quantity c);
                  reason := "Insufficient stock" |} ];
           total_amount := total_amount validation_result;
           item_count := item_count validation_result |}
      else
        let item_total :=
          PrimFloat.mul (Py.float_of_decimal2 (Product.price p))
                        (Py.float_of_Z (Cart.quantity c)) in
        {| valid_items := valid_items validation_result ++
             [ {| cart_item := c; product := p; item_total := item_total |} ];
           invalid_items := invalid_items validation_result;
           total_amount := PrimFloat.add (total_amount validation_result) item_total;
           item_count := item_count validation_result + Cart.quantity c |}
  end.

Definition user_cart (d : Store) (user_id : Z) : list Cart.t :=
  List.filter (fun c => Cart.user_id c =? user_id) (carts d).

Definition validate_cart_items (s : Session) (user_id : Z) : exn + Validation :=
  let cart_items := user_cart (working s) user_id in
  match cart_items with
  | [] => inl (CheckoutError "Cart is empty")
  | _ =>
      inr (fold_left (validate_step (working s)) cart_items
             {| valid_items := []; invalid_items := [];
                total_amount := 0%float; item_count := 0 |})
  end.

Record Totals : Type := {
  subtotal : float;
  discount_amount : float;
  discount_rate : float;
  tax_amount : float;
  shipping_amount : float;
  final_amount : float
}.

Definition calculate_order_totals (cart_validation : Validation) (user : User.t)
    (shipping_address billing_address : string) : Totals :=
  let subtotal := total_amount cart_validation in
  let loyalty_score := User.loyalty_score user in
  let discount_rate :=
    if 1000 <? loyalty_score then 0.10%float
    else if 500 <? loyalty_score then 0.05%float else 0.0%float in
  let discount_amount := PrimFloat.mul subtotal discount_rate in
  let tax_rate := 0.08875%float in
  let taxable_amount := PrimFloat.sub subtotal discount_amount in
  let tax_amount := PrimFloat.mul taxable_amount tax_rate in
  let shipping_amount :=
    if PrimFloat.ltb 1000%float taxable_amount then 0%float else 199.00%float in
  let final_amount :=
    PrimFloat.add (PrimFloat.add taxable_amount tax_amount) shipping_amount in
  {| subtotal := subtotal;
     discount_amount := discount_amount;
     discount_rate := discount_rate;
     tax_amount := tax_amount;
     shipping_amount := shipping_amount;
     final_amount := final_amount |}.

(** [f"LUX-{datetime.now().strftime('%Y%m%d')}-{str(uuid.uuid4())[:8].upper()}"]. *)
Definition new_order_number (env : Env) : string :=
  String.append "LUX-" (String.append (today env) (String.append "-" (order_uuid env))).

(** The [unique=True] constraint on [orders.order_number], checked when the
    new row is flushed. *)
Definition order_number_taken (d : Store) (n : string) : bool :=
  existsb (fun kv => String.eqb (Order.order_number (snd kv)) n)
          (map_to_list (orders d)).

(** The body of the loop of [create_order]: one order item is added and the
    stock of its product, as the session now holds it, goes down. *)
Definition create_item (order_id : Z) (d : Store) (item_data : ValidItem) : Store :=
  let cart_item := cart_item item_data in
  let product := product item_data in
  let order_item :=
    {| OrderItem.order_id := order_id;
       OrderItem.product_id := Product.id product;
       OrderItem.product_name := Product.product_name product;
       OrderItem.quantity := Cart.quantity cart_item;
       OrderItem.unit_price := Py.float_of_decimal2 (Product.price product);
       OrderItem.total_price := item_total item_data |} in
  set_products
    (set_order_items d (order_items d ++ [order_item]))
    (alter (fun p => Product.set_stock p (Product.stock p - Cart.quantity cart_item))
           (Product.id product) (products d)).

Definition create_order (env : Env) (s : Session) (user : User.t)
    (cart_validation : Validation) (totals : Totals)
    (shipping_address billing_address payment_method : string)
    (notes : option string) : (exn + Order.t) * Session :=
  let order_number := new_order_number env in
  let d := working s in
  if order_number_taken d order_number
  then (inl (OtherError (db_error_text env)), s)
  else
    let order :=
      {| Order.id := next_id (orders d);
         Order.order_number := order_number;
         Order.user_id := User.id user;
         Order.total_amount := subtotal totals;
         Order.tax_amount := tax_amount totals;
         Order.shipping_amount := shipping_amount totals;
         Order.discount_amount := discount_amount totals;
         Order.final_amount := final_amount totals;
         Order.payment_status := "pending";
         Order.payment_method := payment_method;
         Order.transaction_id := None;
         Order.shipping_address := shipping_address;
         Order.billing_address := billing_address;
         Order.order_status := "processing";
         Order.notes := notes |} in
    let d1 := set_orders d (<[Order.id order := order]> (orders d)) in
    let d2 := fold_left (create_item (Order.id order)) (valid_items cart_validation) d1 in
    match Py.int_of_float (PrimFloat.div (final_amount totals) 10%float) with
    | inl msg => (inl (OtherError msg), write s d2)
    | inr points =>
        let user' :=
          {| User.id := User.id user;
             User.loyalty_score := User.loyalty_score user + points |} in
        let d3 := set_users d2 (<[User.id user := user']> (users d2)) in
        (inr order, commit (write s d3))
    end.

(** The dict [process_payment] returns. *)
Record PaymentResult : Type := {
  pr_success : bool;
  pr_status : string;
  pr_message : string;
  pr_transaction_id : option string;
  pr_order_id : Z;
  pr_order_number : string
}.

(** The checks of [process_payment] that precede the call of the gateway;
    [Some] is the message of the [CheckoutError] raised. *)
Definition payment_precheck (env : Env) (payment_method : string)
    (card_details : option (gmap string Py.value)) : option string :=
  if negb (mem payment_method get_supported_payment_methods)
  then Some (String.append "Unsupported payment method: " payment_method)
  else if is_card_method payment_method && negb (truthy card_details)
  then Some "Card details required for card payments"%string
  else if truthy card_details then
    let '(is_valid, message) := validate_card_details env (default ∅ card_details) in
    if negb is_valid then Some (String.append "Invalid card details: " message)
    else None
  else None.

Definition process_payment (env : Env) (s : Session) (order : Order.t)
    (payment_method : string) (card_details : option (gmap string Py.value))
  : (exn + PaymentResult) * Session :=
  match payment_precheck env payment_method card_details with
  | Some msg =>
      (inl (CheckoutError (String.append "Payment processing failed: " msg)), s)
  | None =>
      let '(payment_status, message, transaction_id) :=
        PaymentGateway.process_payment env (Order.final_amount order)
          payment_method card_details in
      let is_success := status_eqb payment_status SUCCESS in
      let order' :=
        Order.update order
          (if is_success then "paid"%string else status_value payment_status)
          (match transaction_id with
           | Some t => if String.eqb t EmptyString then Order.transaction_id order else Some t
           | None => Order.transaction_id order
           end)
          (if is_success then "confirmed"%string else Order.order_status order) in
      let result_message :=
        if is_success
        then String.append "Payment successful! Transaction ID: "
               (default "None"%string transaction_id)
        else if status_eqb payment_status FAILED
        then String.append "Payment failed: " message
        else String.append "Payment "
               (String.append (status_value payment_status) (String.append ": " message)) in
      let d := working s in
      let s' := commit (write s (set_orders d (<[Order.id order := order']> (orders d)))) in
      (inr {| pr_success := is_success;
              pr_status := status_value payment_status;
              pr_message := result_message;
              pr_transaction_id := transaction_id;
              pr_order_id := Order.id order;
              pr_order_number := Order.order_number order |}, s')
  end.

(** An entry of ['items'] in the result of a checkout. *)
Record ResultItem : Type := {
  ri_product_name : string;
  ri_quantity : Z;
  ri_price : float;
  ri_total : float
}.

(** The dict [complete_checkout] returns: the one of the [try] body, or the
    one of either handler. *)
Inductive CheckoutResult : Type :=
  | Completed (success : bool) (order_id : Z) (order_number : string)
      (final_amount : float) (payment_result : PaymentResult)
      (items : list ResultItem)
  | Failure (error : string) (error_type : string).

Definition result_success (r : CheckoutResult) : bool :=
  match r with
  | Completed success _ _ _ _ _ => success
  | Failure _ _ => false
  end.

(** The two [except] clauses of [complete_checkout]. *)
Definition handle (e : exn) (s : Session) : CheckoutResult * Session :=
  match e with
  | CheckoutError msg => (Failure msg "checkout_error", rollback s)
  | OtherError msg =>
      (Failure (String.append "Checkout failed: " msg) "system_error", rollback s)
  end.

Definition clear_cart (d : Store) (user_id : Z) : Store :=
  set_carts d (List.filter (fun c => negb (Cart.user_id c =? user_id)) (carts d)).

Definition complete_checkout (env : Env) (s : Session) (user : User.t)
    (shipping_address billing_address payment_method : string)
    (card_details : option (gmap string Py.value)) (notes : option string)
  : CheckoutResult * Session :=
  match validate_cart_items s (User.id user) with
  | inl e => handle e s
  | inr cart_validation =>
    match valid_items cart_validation with
    | [] => handle (CheckoutError "No valid items in cart") s
    | _ =>
      let totals :=
        calculate_order_totals cart_validation user shipping_address billing_address in
      match create_order env s user cart_validation totals
              shipping_address billing_address payment_method notes with
      | (inl e, s1) => handle e s1
      | (inr order, s1) =>
        match process_payment env s1 order payment_method card_details with
        | (inl e, s2) => handle e s2
        | (inr payment_result, s2) =>
          let s3 :=
            if pr_success payment_result
            then commit (write s2 (clear_cart (working s2) (User.id user)))
            else s2 in
          (Completed (pr_success payment_result) (Order.id order)
             (Order.order_number order) (final_amount totals) payment_result
             (map (fun item =>
                     {| ri_product_name := Product.product_name (product item);
                        ri_quantity := Cart.quantity (cart_item item);
                        ri_price := Py.float_of_decimal2 (Product.price (product item));
                        ri_total := item_total item |})
                  (valid_items cart_validation)),
           s3)
        end
      end
    end
  end.

Definition get_order_details (s : Session) (order_id user_id : Z) : option Order.t :=
  match orders (working s) !! order_id with
  | Some o => if Order.user_id o =? user_id then Some o else None
  | None => None
  end.

(** ['refund_result'] of a cancellation. *)
Record RefundResult : Type := {
  rr_status : string;
  rr_message : string;
  rr_amount : float
}.

Record CancelResult : Type := {
  cr_success : bool;
  cr_order_id : Z;
  cr_order_number : string;
  cr_refund_result : option RefundResult
}.

(** The body of the loop of [cancel_order] that restores stock. *)
Definition restore_item (d : Store) (item : OrderItem.t) : Store :=
  match products d !! OrderItem.product_id item with
  | Some p =>
      set_products d
        (<[OrderItem.product_id item :=
             Product.set_stock p (Product.stock p + OrderItem.quantity item)]>
           (products d))
  | None => d
  end.

Definition items_of_order (d : Store) (order_id : Z) : list OrderItem.t :=
  List.filter (fun i => OrderItem.order_id i =? order_id) (order_items d).

Definition cancel_order (env : Env) (s : Session) (order_id user_id : Z)
  : (exn + CancelResult) * Session :=
  match get_order_details s order_id user_id with
  | None => (inl (CheckoutError "Order not found"), s)
  | Some order =>
    if negb (String.eqb (Order.order_status order) "processing"
             || String.eqb (Order.order_status order) "confirmed")
    then (inl (CheckoutError "Cannot cancel order in current status"), s)
    else
      let refund_result :=
        if String.eqb (Order.payment_status order) "success" then
          let '(refund_status, refund_message) :=
            refund_payment env (Order.transaction_id order) (Order.final_amount order) in
          Some {| rr_status := status_value refund_status;
                  rr_message := refund_message;
                  rr_amount := Order.final_amount order |}
        else None in
      let order' :=
        Order.update order
          (match refund_result with Some _ => "refunded" | None => "cancelled" end)%string
          (Order.transaction_id order)
          "cancelled" in
      let d := working s in
      let d1 := set_orders d (<[order_id := order']> (orders d)) in
      let d2 := fold_left restore_item (items_of_order d1 order_id) d1 in
      (inr {| cr_success := true;
              cr_order_id := Order.id order;
              cr_order_number := Order.order_number order;
              cr_refund_result := refund_result |},
       commit (write s d2))
  end.

End CheckoutService.

(** ** The words of the specification, as definitions

    These follow the specification, not the code; the theorems below
    compare them with the functions above. *)

Module Spec.

Import Db CheckoutService.

(** The tier table: score above 1000 gives 10%, above 500 gives 5%,
    otherwise nothing. *)
Definition tier_rate (score : Z) : float :=
  if score >? 1000 then 0.10%float
  else if score >? 500 then 0.05%float
  else 0%float.

(** How one cart line is sorted: invalid with a reason, or valid with its
    line total [price * quantity]. *)
Definition classify (d : Store) (c : Cart.t) : InvalidItem + ValidItem :=
  match products d !! Cart.product_id c with
  | None =>
      inl {| cart_item_id := Cart.id c; product_name := None;
             available_stock := None; requested_quantity := None;
             reason := "Product not found" |}
  | Some p =>
      if Product.stock p <? Cart.quantity c
      then inl {| cart_item_id := Cart.id c;
                  product_name := Some (Product.product_name p);
                  available_stock := Some (Product.stock p);
                  requested_quantity := Some (Cart.quantity c);
                  reason := "Insufficient stock" |}
      else inr {| cart_item := c; product := p;
                  item_total :=
                    PrimFloat.mul (Py.float_of_decimal2 (Product.price p))
                                  (Py.float_of_Z (Cart.quantity c)) |}
  end.

Definition invalid_of (d : Store) (cart : list Cart.t) : list InvalidItem :=
  omap (fun c => match classify d c with inl i => Some i | inr _ => None end) cart.

Definition valid_of (d : Store) (cart : list Cart.t) : list ValidItem :=
  omap (fun c => match classify d c with inl _ => None | inr v => Some v end) cart.

(** The running subtotal: the line totals added one after the other. *)
Definition sum_totals (start : float) (l : list ValidItem) : float :=
  fold_left (fun acc v => PrimFloat.add acc (item_total v)) l start.

Definition sum_quantities (l : list ValidItem) : Z :=
  foldr (fun v acc => Cart.quantity (cart_item v) + acc) 0 l.

(** What the validator is to return for a non-empty cart. *)
Definition validation (d : Store) (cart : list Cart.t) : Validation :=
  {| valid_items := valid_of d cart;
     invalid_items := invalid_of d cart;
     total_amount := sum_totals 0%float (valid_of d cart);
     item_count := sum_quantities (valid_of d cart) |}.

(** Card details were supplied for a card method and do not pass the
    gateway's validation. *)
Definition card_details_rejected (env : PaymentGateway.Env) (method : string)
    (card_details : option (gmap string Py.value)) : bool :=
  PaymentGateway.is_card_method method
  && PaymentGateway.truthy card_details
  && negb (fst (PaymentGateway.validate_card_details env (default ∅ card_details))).

(** The quantity a cancellation is to give back to product [pid]. *)
Definition restored (items : list OrderItem.t) (pid : Z) : Z :=
  foldr (fun i acc =>
           if OrderItem.product_id i =? pid then OrderItem.quantity i + acc else acc)
        0 items.

End Spec.

(** ** Scenarios used by the examples, witnesses and counterexamples *)

Module Scenario.

Import PaymentGateway Db CheckoutService.

(** A day on which the gateway accepts the payment and the refund. *)
Definition env_ok : Env :=
  {| now_year := 2026; now_month := 11; today := "20261103";
     order_uuid := "A1B2C3D4"; txn_uuid := "9F8E7D6C";
     random_value := 0.5%float; reason_index := 1;
     refund_random := 0.5%float;
     db_error_text := "duplicate key value violates unique constraint" |}.

(** The gateway declines the payment. *)
Definition env_declined : Env :=
  {| now_year := 2026; now_month := 11; today := "20261103";
     order_uuid := "A1B2C3D4"; txn_uuid := "9F8E7D6C";
     random_value := 0.9%float; reason_index := 1;
     refund_random := 0.5%float;
     db_error_text := "duplicate key value violates unique constraint" |}.

(** The gateway fails the refund. *)
Definition env_refund_fails : Env :=
  {| now_year := 2026; now_month := 11; today := "20261103";
     order_uuid := "A1B2C3D4"; txn_uuid := "9F8E7D6C";
     random_value := 0.5%float; reason_index := 1;
     refund_random := 0.99%float;
     db_error_text := "duplicate key value violates unique constraint" |}.

Definition alice : User.t := {| User.id := 1; User.loyalty_score := 1200 |}.

Definition gown : Product.t :=
  {| Product.id := 10; Product.product_name := "Silk Gown";
     Product.price := 25000; Product.stock := 5 |}.

(** Alice has two gowns at 250.00 in her cart: a subtotal of 500. *)
Definition shop : Store :=
  {| users := {[ 1 := alice ]};
     products := {[ 10 := gown ]};
     carts := [ {| Cart.id := 1; Cart.user_id := 1; Cart.product_id := 10;
                   Cart.quantity := 2 |} ];
     orders := ∅;
     order_items := [] |}.

Definition fresh : Session := {| committed := shop; working := shop |}.

Definition address : string := "12 Main Street, Springfield".

(** An order of Alice for two gowns, in the given statuses. *)
Definition an_order (order_status payment_status : string) : Order.t :=
  {| Order.id := 1; Order.order_number := "LUX-20261101-0000AAAA";
     Order.user_id := 1;
     Order.total_amount := 500%float; Order.tax_amount := 39.9375%float;
     Order.shipping_amount := 199%float; Order.discount_amount := 50%float;
     Order.final_amount := 688.9375%float;
     Order.payment_status := payment_status;
     Order.payment_method := "upi";
     Order.transaction_id := Some "TXN-20261101-0000BBBB"%string;
     Order.shipping_address := address; Order.billing_address := address;
     Order.order_status := order_status; Order.notes := None |}.

(** The shop once that order exists: three gowns left, the cart cleared. *)
Definition shop_with (o : Order.t) : Store :=
  {| users := {[ 1 := alice ]};
     products := {[ 10 := Product.set_stock gown 3 ]};
     carts := [];
     orders := {[ 1 := o ]};
     order_items :=
       [ {| OrderItem.order_id := 1; OrderItem.product_id := 10;
            OrderItem.product_name := "Silk Gown"; OrderItem.quantity := 2;
            OrderItem.unit_price := 250%float;
            OrderItem.total_price := 500%float |} ] |}.

Definition session_with (o : Order.t) : Session :=
  {| committed := shop_with o; working := shop_with o |}.

(** Card details without an expiry date. *)
Definition bad_card : gmap string Py.value :=
  {[ "card_number"%string := Py.VStr "4111111111111111" ]}.

Definition good_card : gmap string Py.value :=
  <["card_number"%string := Py.VStr "4111111111111111"]>
  (<["expiry_month"%string := Py.VInt 12]>
  (<["expiry_year"%string := Py.VStr "2027"]>
  (<["cvv"%string := Py.VStr "123"]> ∅))).

End Scenario.

(** ** Notions used to state what the code keeps *)

Module Notions.

Import Db CheckoutService.

(** The quantity the valid lines [l] order of product [pid]. *)
Definition ordered (l : list ValidItem) (pid : Z) : Z :=
  foldr (fun v acc =>
           if Product.id (product v) =? pid
           then Cart.quantity (cart_item v) + acc else acc)
        0 l.

(** The row of [order_items] that a valid line becomes. *)
Definition item_row (order_id : Z) (v : ValidItem) : OrderItem.t :=
  {| OrderItem.order_id := order_id;
     OrderItem.product_id := Product.id (product v);
     OrderItem.product_name := Product.product_name (product v);
     OrderItem.quantity := Cart.quantity (cart_item v);
     OrderItem.unit_price := Py.float_of_decimal2 (Product.price (product v));
     OrderItem.total_price := item_total v |}.

(** The foreign key of [order_items.order_id]: every item belongs to an
    order that exists. *)
Definition items_reference_orders (d : Store) : Prop :=
  forall i, In i (order_items d) -> is_Some (orders d !! OrderItem.order_id i).

(** The primary key of [products]: a row is stored under its own id. *)
Definition products_keyed (d : Store) : Prop :=
  forall pid p, products d !! pid = Some p -> Product.id p = pid.

(** The primary key of [orders]. *)
Definition orders_keyed (d : Store) : Prop :=
  forall k o, orders d !! k = Some o -> Order.id o = k.

(** No product has a negative stock. *)
Definition stock_non_negative (d : Store) : Prop :=
  forall pid p, products d !! pid = Some p -> 0 <= Product.stock p.

(** The cart lines name pairwise distinct products. *)
Definition distinct_products (cart : list Cart.t) : Prop :=
  NoDup (map Cart.product_id cart).

End Notions.

(** ** main.py: the routes that call the checkout service or write the
    same tables

    A route is modelled by its body: the request has passed the validation
    of its pydantic model, the user is the authenticated one, and the
    session is the fresh one the request gets, so a route takes the
    database as it is and returns it as it is left.  [print] calls, the
    columns left out of the tables and the response fields read from them
    ([image_url], [added_at], [tracking_number]) are not modelled. *)

Module Routes.

Import PaymentGateway Db CheckoutService.

(** ['error_details'] of an error response. *)
Record ErrorDetails : Type := {
  ed_message : string;
  ed_type : string;
  ed_timestamp : string
}.

(** The dict [error_response] of the checkout route. *)
Record ErrorResponse : Type := {
  er_success : bool;
  er_error : string;
  er_error_type : string;
  er_error_details : ErrorDetails
}.

Inductive Detail : Type :=
  | Text (s : string)
  | Error (e : ErrorResponse).

Record HTTPException : Type := { status_code : Z; detail : Detail }.

(** What a route reads from the framework and the clock: the text
    [str(e)] of an [HTTPException], and [datetime.utcnow().isoformat()] at
    the first and at the second place a route calls it. *)
Record Web : Type := {
  str_http : HTTPException -> string;
  utcnow_first : string;
  utcnow_second : string
}.

(** The session of a request. *)
Definition session_of (d : Store) : Session := {| committed := d; working := d |}.



(** The [except Exception] clause of the pay route. *)
Definition payment_system_error (text : string) : HTTPException :=
  {| status_code := 500;
     detail := Text (String.append "Payment processing failed: " text) |}.

(** [POST /orders/{order_id}/pay]; the two guards raise inside the [try]. *)
Definition process_payment (web : Web) (env : Env) (d : Store) (order_id : Z)
    (payment_method : string) (card_details : option (gmap string Py.value))
    (current_user : User.t) : (HTTPException + PaymentResult) * Store :=
  match get_order_details (session_of d) order_id (User.id current_user) with
  | None =>
      (inl (payment_system_error
              (str_http web {| status_code := 404; detail := Text "Order not found" |})),
       d)
  | Some order =>
      if negb (String.eqb (Order.payment_status order) "pending")
      then
        (inl (payment_system_error
                (str_http web {| status_code := 400;
                                 detail := Text "Payment already processed" |})),
         d)
      else
        match CheckoutService.process_payment env (session_of d) order
                payment_method card_details with
        | (inr payment_result, s') => (inr payment_result, committed s')
        | (inl (CheckoutError msg), s') =>
            (inl {| status_code := 400; detail := Text msg |}, committed s')
        | (inl (OtherError msg), s') =>
            (inl (payment_system_error msg), committed s')
        end
  end.

(** [PUT /orders/{order_id}/cancel], the route [cancel_order_route] that
    writes the tables itself. *)
Definition cancel_order_route (d : Store) (order_id : Z) (current_user : User.t)
  : (HTTPException + string) * Store :=
  match get_order_details (session_of d) order_id (User.id current_user) with
  | None => (inl {| status_code := 404; detail := Text "Order not found" |}, d)
  | Some order =>
      if negb (String.eqb (Order.order_status order) "processing"
               || String.eqb (Order.order_status order) "confirmed")
      then (inl {| status_code := 400;
                   detail := Text "Cannot cancel order in current status" |}, d)
      else
        let order' :=
          Order.update order "refunded" (Order.transaction_id order) "cancelled" in
        let d1 := set_orders d (<[order_id := order']> (orders d)) in
        (inr "Order cancelled successfully"%string,
         fold_left restore_item (items_of_order d1 order_id) d1)
  end.

(** [PUT /admin/orders/{order_id}]; [status] is one of the five order
    statuses. *)
Definition update_order_status (d : Store) (order_id : Z) (status : string)
  : (HTTPException + string) * Store :=
  match orders d !! order_id with
  | None => (inl {| status_code := 404; detail := Text "Order not found" |}, d)
  | Some order =>
      let order' :=
        Order.update order
          (if String.eqb status "delivered" then "paid"%string
           else Order.payment_status order)
          (Order.transaction_id order) status in
      (inr "Order status updated successfully"%string,
       set_orders d (<[order_id := order']> (orders d)))
  end.






(** The body of the response of [GET /cart/checkout-preview]: the dict
    without items, or the one with the count, the lines, the totals and
    ['user_loyalty']. *)
Inductive Preview : Type :=
  | NoItems (message : string)
  | Items (item_count : Z) (valid_items : list ResultItem) (totals : Totals)
      (score : Z) (discount_rate : float) (discount_amount : float).

(** [GET /cart/checkout-preview]; [address] is [current_user.address].  The
    whole body is in a [try] whose handler turns every exception, the
    [CheckoutError] of an empty cart included, into a 500. *)
Definition get_checkout_preview (d : Store) (current_user : User.t)
    (address : option string) : HTTPException + Preview :=
  match validate_cart_items (session_of d) (User.id current_user) with
  | inl e =>
      inl {| status_code := 500;
             detail := Text (String.append "Failed to get checkout preview: "
                               (exn_str e)) |}
  | inr cart_validation =>
      match CheckoutService.valid_items cart_validation with
      | [] => inr (NoItems "No valid items in cart")
      | _ =>
          let shown :=
            match address with
            | Some a => if String.eqb a EmptyString then "Default Address"%string else a
            | None => "Default Address"%string
            end in
          let totals :=
            calculate_order_totals cart_validation current_user shown shown in
          inr (Items (CheckoutService.item_count cart_validation)
                 (map (fun item =>
                         {| ri_product_name := Product.product_name (product item);
                            ri_quantity := Cart.quantity (cart_item item);
                            ri_price :=
                              Py.float_of_decimal2 (Product.price (product item));
                            ri_total := item_total item |})
                      (CheckoutService.valid_items cart_validation))
                 totals (User.loyalty_score current_user)
                 (CheckoutService.discount_rate totals)
                 (CheckoutService.discount_amount totals))
      end
  end.

End Routes.

(** A framework for the examples: [str(e)] gives the status code and, for a
    text detail, the text. *)
Module RouteScenario.

Definition web : Routes.Web :=
  {| Routes.str_http := fun e =>
       match Routes.detail e with
       | Routes.Text t =>
           String.append (Py.str_of_Z (Routes.status_code e)) (String.append ": " t)
       | Routes.Error _ => Py.str_of_Z (Routes.status_code e)
       end;
     Routes.utcnow_first := "2026-11-03T10:00:00.000001";
     Routes.utcnow_second := "2026-11-03T10:00:00.000002" |}.

End RouteScenario.

(** * Properties *)

(** ** Sanity checks of the Python primitives *)

Example int_of_string_accepts_sign_space_underscore :
  Py.int_of_string " +1_2 " = Some 12.
Proof. reflexivity. Qed.

Example int_of_string_rejects_double_underscore : Py.int_of_string "1__2" = None.
Proof. reflexivity. Qed.

Example format_2f_examples :
  Py.format_2f 688.9375%float = "688.94"%string
  /\ Py.format_2f 2.675%float = "2.67"%string
  /\ Py.format_2f (-0.001)%float = "-0.00"%string
  /\ Py.format_2f 0.125%float = "0.12"%string.
Proof. vm_compute. repeat split; reflexivity. Qed.

Example round2_example : Py.round2 688.9375%float = 688.94%float.
Proof. vm_compute. reflexivity. Qed.

Example int_of_float_truncates :
  Py.int_of_float 68.89375%float = inr 68
  /\ Py.int_of_float (-2.5)%float = inr (-2).
Proof. vm_compute. split; reflexivity. Qed.

Example float_of_decimal2_example : Py.float_of_decimal2 1999 = 19.99%float.
Proof. vm_compute. reflexivity. Qed.

Example validate_card_details_examples :
  PaymentGateway.validate_card_details Scenario.env_ok Scenario.good_card
    = (true, "Card details valid"%string)
  /\ PaymentGateway.validate_card_details Scenario.env_ok Scenario.bad_card
    = (false, "Missing required field: expiry_month"%string).
Proof. vm_compute. split; reflexivity. Qed.

(** ** The scenarios, run *)

Example refund_message_example :
  PaymentGateway.refund_payment Scenario.env_ok
    (Some "TXN-20261101-0000BBBB"%string) 688.9375%float
  = (PaymentGateway.REFUNDED,
     String.append "Refund of "
       (String.append PaymentGateway.currency_mark
          "688.94 processed successfully")).
Proof. vm_compute. reflexivity. Qed.

Example refund_without_transaction_id :
  PaymentGateway.refund_payment Scenario.env_ok None 688.9375%float
  = (PaymentGateway.FAILED, "Invalid transaction ID"%string).
Proof. reflexivity. Qed.

(** A checkout that goes through: the order is paid and confirmed, two
    gowns leave the stock, 68 points are added and the cart is cleared. *)
Example successful_checkout :
  let run := CheckoutService.complete_checkout Scenario.env_ok Scenario.fresh
               Scenario.alice Scenario.address Scenario.address "upi" None None in
  CheckoutService.result_success (fst run) = true
  /\ Db.carts (Db.committed (snd run)) = []
  /\ Order.payment_status <$> Db.orders (Db.committed (snd run)) !! 1
     = Some "paid"%string
  /\ Order.order_status <$> Db.orders (Db.committed (snd run)) !! 1
     = Some "confirmed"%string
  /\ Order.transaction_id <$> Db.orders (Db.committed (snd run)) !! 1
     = Some (Some "TXN-20261103-9F8E7D6C"%string)
  /\ Product.stock <$> Db.products (Db.committed (snd run)) !! 10 = Some 3
  /\ User.loyalty_score <$> Db.users (Db.committed (snd run)) !! 1 = Some 1268.
Proof. vm_compute. repeat split; reflexivity. Qed.

(** An empty cart is a checkout error and changes nothing. *)
Example empty_cart_checkout :
  CheckoutService.complete_checkout Scenario.env_ok Scenario.fresh
    {| User.id := 2; User.loyalty_score := 0 |}
    Scenario.address Scenario.address "upi" None None
  = (CheckoutService.Failure "Cart is empty" "checkout_error", Scenario.fresh).
Proof. reflexivity. Qed.

(** ** Order totals *)

Section Totals.

Import CheckoutService.

#[local] Open Scope float_scope.

(** Two closed floats differ when their decoded forms do. *)
Ltac float_discriminate :=
  let H := fresh "H" in
  intro H; apply (f_equal Prim2SF) in H; vm_compute in H; discriminate H.

Lemma tier_rate_code (user : User.t) cv sa ba :
  discount_rate (calculate_order_totals cv user sa ba)
  = Spec.tier_rate (User.loyalty_score user).
Proof.
  unfold calculate_order_totals, Spec.tier_rate; cbn [discount_rate].
  rewrite !Z.gtb_ltb. reflexivity.
Qed.

(** C5: for every subtotal and loyalty score, [calculate_order_totals]
    gives [discount_amount = subtotal * r] with [r] the tier rate (0.10 above
    1000, 0.05 above 500, else 0), [tax_amount] 8.875% of the subtotal less
    the discount, [shipping_amount] 0 when that taxable amount exceeds 1000
    and 199 otherwise, and [final_amount] their sum with the taxable
    amount. *)
Theorem calculate_order_totals_formulas
    (cart_validation : Validation) (user : User.t) (sa ba : string) :
  let subtotal := total_amount cart_validation in
  let r := Spec.tier_rate (User.loyalty_score user) in
  let t := calculate_order_totals cart_validation user sa ba in
  discount_amount t = subtotal * r
  /\ tax_amount t = (subtotal - discount_amount t) * 0.08875
  /\ shipping_amount t
     = (if 1000 <? subtotal - discount_amount t then 0 else 199)
  /\ final_amount t
     = (subtotal - discount_amount t) + tax_amount t + shipping_amount t.
Proof.
  intros subtotal r t. subst subtotal r t.
  rewrite <- (tier_rate_code user cart_validation sa ba).
  unfold calculate_order_totals; cbn.
  repeat split; reflexivity.
Qed.

(** C6, as stated, fails: the totals of Alice's cart (subtotal 500, loyalty
    score 1200) are not rounded to two places: [final_amount] differs from
    [round(..., 2)] of the sum, [tax_amount] is not 39.94 and [final_amount]
    is not 688.94. *)
Lemma final_amount_rounded_counterexample :
  exists cv,
    validate_cart_items Scenario.fresh 1 = inr cv
    /\ total_amount cv = 500
    /\ let t := calculate_order_totals cv Scenario.alice
                  Scenario.address Scenario.address in
       final_amount t
         <> Py.round2 ((subtotal t - discount_amount t) + tax_amount t
                       + shipping_amount t)
       /\ tax_amount t <> 39.94
       /\ final_amount t <> 688.94.
Proof.
  eexists. split; [vm_compute; reflexivity|].
  split; [vm_compute; reflexivity|].
  cbv zeta. repeat split; float_discriminate.
Qed.

(** C6, amended: [final_amount] is the float sum
    [(subtotal - discount) + tax + shipping], with no rounding step; a
    subtotal of 500 with loyalty score 1200 yields [tax_amount = 39.9375]
    and [final_amount = 688.9375]. *)
Theorem final_amount_unrounded
    (cart_validation : Validation) (user : User.t) (sa ba : string) :
  let t := calculate_order_totals cart_validation user sa ba in
  final_amount t
    = (subtotal t - discount_amount t) + tax_amount t + shipping_amount t
  /\ (total_amount cart_validation = 500 -> User.loyalty_score user = 1200%Z ->
      discount_amount t = 50 /\ tax_amount t = 39.9375
      /\ shipping_amount t = 199 /\ final_amount t = 688.9375).
Proof.
  intros t; subst t. split; [reflexivity|].
  intros Hsub Hscore. unfold calculate_order_totals; cbn.
  rewrite Hsub, Hscore. vm_compute. repeat split; reflexivity.
Qed.

Lemma final_amount_unrounded_witness :
  exists cv,
    validate_cart_items Scenario.fresh 1 = inr cv
    /\ tax_amount (calculate_order_totals cv Scenario.alice Scenario.address Scenario.address) = 39.9375
    /\ final_amount (calculate_order_totals cv Scenario.alice Scenario.address Scenario.address) = 688.9375.
Proof.
  eexists. split; [vm_compute; reflexivity|].
  pose proof (final_amount_unrounded
    (Spec.validation Scenario.shop (user_cart Scenario.shop 1))
    Scenario.alice Scenario.address Scenario.address) as [_ H].
  destruct H as (_ & Htax & _ & Hfinal);
    [vm_compute; reflexivity | reflexivity | ].
  split; [exact Htax | exact Hfinal].
Defined.

End Totals.

(** ** Cart validation *)

Section CartValidation.

Import Db CheckoutService.

Lemma valid_of_cons d c l :
  Spec.valid_of d (c :: l)
  = match Spec.classify d c with
    | inl _ => Spec.valid_of d l
    | inr v => v :: Spec.valid_of d l
    end.
Proof. unfold Spec.valid_of; cbn. destruct (Spec.classify d c); reflexivity. Qed.

Lemma invalid_of_cons d c l :
  Spec.invalid_of d (c :: l)
  = match Spec.classify d c with
    | inl i => i :: Spec.invalid_of d l
    | inr _ => Spec.invalid_of d l
    end.
Proof. unfold Spec.invalid_of; cbn. destruct (Spec.classify d c); reflexivity. Qed.

(** The loop of [validate_cart_items], started from any accumulator. *)
Lemma fold_validate_step d l : forall acc,
  fold_left (validate_step d) l acc
  = {| valid_items := valid_items acc ++ Spec.valid_of d l;
       invalid_items := invalid_items acc ++ Spec.invalid_of d l;
       total_amount := Spec.sum_totals (total_amount acc) (Spec.valid_of d l);
       item_count := item_count acc + Spec.sum_quantities (Spec.valid_of d l) |}.
Proof.
  induction l as [|c l IH]; intros acc.
  - cbn. rewrite !app_nil_r, Z.add_0_r. destruct acc; reflexivity.
  - cbn [fold_left]. rewrite IH, valid_of_cons, invalid_of_cons.
    unfold validate_step, Spec.classify.
    destruct (products d !! Cart.product_id c) as [p|]; cbn.
    + destruct (Product.stock p <? Cart.quantity c); cbn.
      * rewrite <- app_assoc. reflexivity.
      * rewrite <- app_assoc, Z.add_assoc. reflexivity.
    + rewrite <- app_assoc. reflexivity.
Qed.


End CartValidation.

(** ** The payment gateway *)

Section Gateway.

Import PaymentGateway.

(** A positive amount does not take the [amount <= 0] branch. *)
Lemma positive_not_le (x : float) :
  PrimFloat.ltb 0 x = true -> PrimFloat.leb x 0 = false.
Proof.
  rewrite ltb_spec, leb_spec.
  replace (Prim2SF 0) with (S754_zero false) by reflexivity.
  destruct (Prim2SF x) as [sg|sg| |sg m e]; cbn; try discriminate;
    destruct sg; cbn; try discriminate; reflexivity.
Qed.

Lemma card_method_supported (method : string) :
  is_card_method method = true -> mem method get_supported_payment_methods = true.
Proof.
  unfold is_card_method. intros H. apply orb_true_iff in H.
  destruct H as [H|H]; apply String.eqb_eq in H; subst method; reflexivity.
Qed.

Lemma select_outcome_transaction_id env t : snd (select_outcome env t) = Some t.
Proof.
  unfold select_outcome.
  destruct (PrimFloat.ltb _ success_rate); [reflexivity|].
  destruct (PrimFloat.ltb _ _); reflexivity.
Qed.

Lemma select_outcome_status env t :
  fst (fst (select_outcome env t)) = SUCCESS
  \/ fst (fst (select_outcome env t)) = FAILED.
Proof.
  unfold select_outcome.
  destruct (PrimFloat.ltb _ success_rate); [left; reflexivity|].
  destruct (PrimFloat.ltb _ _); right; reflexivity.
Qed.

(** The gateway never reports anything but success or failure. *)
Lemma process_payment_status env amount method cd :
  fst (fst (process_payment env amount method cd)) = SUCCESS
  \/ fst (fst (process_payment env amount method cd)) = FAILED.
Proof.
  unfold process_payment.
  destruct (PrimFloat.leb amount 0); [right; reflexivity|].
  destruct (negb (mem method get_supported_payment_methods)); [right; reflexivity|].
  destruct (is_card_method method && truthy cd).
  - destruct (validate_card_details env (default ∅ cd)) as [ok msg].
    destruct ok; cbn [negb]; [apply select_outcome_status | right; reflexivity].
  - apply select_outcome_status.
Qed.




End Gateway.

(** ** Payment through the service *)

Section ServicePayment.

Import PaymentGateway Db CheckoutService.

(** C10: for a card method and a positive amount, the gateway called
    without card details validates nothing: its result is the outcome draw
    itself, so it returns SUCCESS whenever the draw falls below the success
    rate; the rejection of missing card details is made by the service's
    [process_payment], which raises before the gateway is called and leaves
    the session as it was. *)
Theorem gateway_accepts_card_method_without_details
    (env : Env) (amount : float) (method : string) (s : Session) (order : Order.t) :
  is_card_method method = true ->
  PrimFloat.ltb 0 amount = true ->
  PaymentGateway.process_payment env amount method None
    = select_outcome env (new_transaction_id env)
  /\ (PrimFloat.ltb (random_value env) success_rate = true ->
      PaymentGateway.process_payment env amount method None
        = (SUCCESS, "Payment successful"%string, Some (new_transaction_id env)))
  /\ CheckoutService.process_payment env s order method None
     = (inl (CheckoutError
               "Payment processing failed: Card details required for card payments"),
        s).
Proof.
  intros Hcard Hpos.
  assert (Hgw : PaymentGateway.process_payment env amount method None
                = select_outcome env (new_transaction_id env)).
  { unfold PaymentGateway.process_payment.
    rewrite (positive_not_le _ Hpos), (card_method_supported _ Hcard).
    cbn [negb truthy]. rewrite andb_false_r. reflexivity. }
  split; [exact Hgw|]. split.
  - intros Hdraw. rewrite Hgw. unfold select_outcome. rewrite Hdraw. reflexivity.
  - unfold CheckoutService.process_payment, payment_precheck.
    rewrite (card_method_supported _ Hcard), Hcard. reflexivity.
Qed.

Lemma gateway_accepts_card_method_without_details_witness :
  PaymentGateway.process_payment Scenario.env_ok 688.9375%float "credit_card" None
    = (SUCCESS, "Payment successful"%string, Some "TXN-20261103-9F8E7D6C"%string)
  /\ CheckoutService.process_payment Scenario.env_ok
       (Scenario.session_with (Scenario.an_order "processing" "pending"))
       (Scenario.an_order "processing" "pending") "credit_card" None
     = (inl (CheckoutError
               "Payment processing failed: Card details required for card payments"),
        Scenario.session_with (Scenario.an_order "processing" "pending")).
Proof.
  destruct (gateway_accepts_card_method_without_details Scenario.env_ok
              688.9375%float "credit_card"%string
              (Scenario.session_with (Scenario.an_order "processing" "pending"))
              (Scenario.an_order "processing" "pending") eq_refl eq_refl)
    as (_ & Hsuccess & Hservice).
  split; [exact (Hsuccess eq_refl) | exact Hservice].
Defined.

End ServicePayment.

(** ** Cancellation *)

Section Cancellation.

Import PaymentGateway Db CheckoutService.

(** C7: [cancel_order] on an order of the caller succeeds exactly when its
    [order_status] is "processing" or "confirmed"; in every other status, so
    in particular "shipped", "delivered" and "cancelled", it raises
    "Cannot cancel order in current status" and the session, with every
    order status, payment status and stock in it, is the one it was given. *)
Theorem cancel_order_status_gate
    (env : Env) (s : Session) (order_id user_id : Z) (o : Order.t) :
  get_order_details s order_id user_id = Some o ->
  ((exists r s', cancel_order env s order_id user_id = (inr r, s'))
   <-> (Order.order_status o = "processing"%string
        \/ Order.order_status o = "confirmed"%string))
  /\ (Order.order_status o = "shipped"%string
      \/ Order.order_status o = "delivered"%string
      \/ Order.order_status o = "cancelled"%string ->
      cancel_order env s order_id user_id
        = (inl (CheckoutError "Cannot cancel order in current status"), s))
  /\ (Order.order_status o <> "processing"%string ->
      Order.order_status o <> "confirmed"%string ->
      cancel_order env s order_id user_id
        = (inl (CheckoutError "Cannot cancel order in current status"), s)).
Proof.
  intros Hget. unfold cancel_order. rewrite Hget.
  destruct (String.eqb (Order.order_status o) "processing") eqn:Hp;
    [| destruct (String.eqb (Order.order_status o) "confirmed") eqn:Hc ];
    cbn [orb negb].
  - apply String.eqb_eq in Hp. split; [|split].
    + split; [intros _; left; exact Hp | intros _; eauto].
    + rewrite Hp. intros [H|[H|H]]; discriminate H.
    + intros H _. contradiction.
  - apply String.eqb_eq in Hc. split; [|split].
    + split; [intros _; right; exact Hc | intros _; eauto].
    + rewrite Hc. intros [H|[H|H]]; discriminate H.
    + intros _ H. contradiction.
  - apply String.eqb_neq in Hp, Hc. split; [|split].
    + split; [intros (r & s' & H); discriminate H | intros [H|H]; contradiction].
    + intros _. reflexivity.
    + intros _ _. reflexivity.
Qed.

Lemma cancel_order_status_gate_witness :
  cancel_order Scenario.env_ok
    (Scenario.session_with (Scenario.an_order "shipped" "paid")) 1 1
  = (inl (CheckoutError "Cannot cancel order in current status"),
     Scenario.session_with (Scenario.an_order "shipped" "paid")).
Proof.
  exact (proj1 (proj2 (cancel_order_status_gate Scenario.env_ok
                  (Scenario.session_with (Scenario.an_order "shipped" "paid"))
                  1 1 (Scenario.an_order "shipped" "paid") eq_refl))
               (or_introl eq_refl)).
Defined.

(** Restoring stock touches the products table only. *)
Lemma restore_item_frame d i :
  orders (restore_item d i) = orders d
  /\ carts (restore_item d i) = carts d
  /\ users (restore_item d i) = users d
  /\ order_items (restore_item d i) = order_items d.
Proof.
  unfold restore_item. destruct (products d !! OrderItem.product_id i); auto.
Qed.

Lemma fold_restore_frame l : forall d,
  orders (fold_left restore_item l d) = orders d
  /\ carts (fold_left restore_item l d) = carts d
  /\ users (fold_left restore_item l d) = users d
  /\ order_items (fold_left restore_item l d) = order_items d.
Proof.
  induction l as [|i l IH]; intros d; cbn [fold_left]; [auto|].
  destruct (IH (restore_item d i)) as (-> & -> & -> & ->).
  apply restore_item_frame.
Qed.

Lemma set_stock_same p : Product.set_stock p (Product.stock p + 0) = p.
Proof. destruct p; unfold Product.set_stock; cbn. rewrite Z.add_0_r. reflexivity. Qed.

(** The loop that restores stock: every product that exists gets back the
    quantities of the items that name it, and nothing else changes. *)
Lemma fold_restore_products l : forall d pid,
  products (fold_left restore_item l d) !! pid
  = (fun p => Product.set_stock p (Product.stock p + Spec.restored l pid))
      <$> products d !! pid.
Proof.
  induction l as [|i l IH]; intros d pid; cbn [fold_left Spec.restored foldr].
  - destruct (products d !! pid) as [p|]; cbn; [|reflexivity].
    rewrite set_stock_same. reflexivity.
  - rewrite IH. fold (Spec.restored l pid). unfold restore_item.
    destruct (products d !! OrderItem.product_id i) as [p0|] eqn:Hp0.
    + cbn [products set_products].
      destruct (Z.eqb_spec (OrderItem.product_id i) pid) as [Heq|Hne].
      * rewrite Heq in *. rewrite lookup_insert_eq, Hp0. cbn.
        unfold Product.set_stock; cbn. do 2 f_equal. lia.
      * rewrite lookup_insert_ne by exact Hne. reflexivity.
    + destruct (Z.eqb_spec (OrderItem.product_id i) pid) as [Heq|Hne];
        [rewrite Heq in *; rewrite Hp0|]; reflexivity.
Qed.

(** What a cancellation that goes through does. *)
Lemma cancel_order_inr env s order_id user_id r s' :
  cancel_order env s order_id user_id = (inr r, s') ->
  exists o,
    get_order_details s order_id user_id = Some o
    /\ cr_refund_result r
       = (if String.eqb (Order.payment_status o) "success"
          then Some {| rr_status :=
                         status_value
                           (fst (refund_payment env (Order.transaction_id o)
                                   (Order.final_amount o)));
                       rr_message :=
                         snd (refund_payment env (Order.transaction_id o)
                                (Order.final_amount o));
                       rr_amount := Order.final_amount o |}
          else None)
    /\ orders (working s') !! order_id
       = Some (Order.update o
                 (match cr_refund_result r with
                  | Some _ => "refunded"
                  | None => "cancelled"
                  end)%string
                 (Order.transaction_id o) "cancelled")
    /\ (forall pid,
          products (working s') !! pid
          = (fun p => Product.set_stock p
                        (Product.stock p
                         + Spec.restored (items_of_order (working s) order_id) pid))
              <$> products (working s) !! pid)
    /\ carts (working s') = carts (working s)
    /\ committed s' = working s'.
Proof.
  unfold cancel_order.
  destruct (get_order_details s order_id user_id) as [o|]; [|discriminate].
  destruct (negb _); [discriminate|].
  intros H. injection H as <- <-. exists o.
  cbn [cr_refund_result working commit write committed].
  set (d1 := set_orders (working s) _).
  destruct (fold_restore_frame (items_of_order d1 order_id) d1) as (Ho & Hc & _ & _).
  split; [reflexivity|]. split.
  { destruct (String.eqb (Order.payment_status o) "success");
      [destruct (refund_payment _ _ _)|]; reflexivity. }
  split.
  { rewrite Ho. subst d1. cbn [orders set_orders]. rewrite lookup_insert_eq.
    destruct (String.eqb (Order.payment_status o) "success");
      [destruct (refund_payment _ _ _)|]; reflexivity. }
  split; [|split; [rewrite Hc; reflexivity | reflexivity]].
  intros pid. rewrite fold_restore_products. reflexivity.
Qed.

(** What a payment that does not raise does to the order and the session. *)
Lemma process_payment_inr env s order method cd res s1 :
  CheckoutService.process_payment env s order method cd = (inr res, s1) ->
  let g := PaymentGateway.process_payment env (Order.final_amount order) method cd in
  pr_success res = status_eqb (fst (fst g)) SUCCESS
  /\ pr_status res = status_value (fst (fst g))
  /\ pr_transaction_id res = snd g
  /\ orders (working s1) !! Order.id order
     = Some (Order.update order
               (if status_eqb (fst (fst g)) SUCCESS then "paid"%string
                else status_value (fst (fst g)))
               (match snd g with
                | Some t => if String.eqb t EmptyString then Order.transaction_id order
                            else Some t
                | None => Order.transaction_id order
                end)
               (if status_eqb (fst (fst g)) SUCCESS then "confirmed"%string
                else Order.order_status order))
  /\ carts (working s1) = carts (working s)
  /\ products (working s1) = products (working s)
  /\ order_items (working s1) = order_items (working s)
  /\ committed s1 = working s1.
Proof.
  unfold CheckoutService.process_payment.
  destruct (payment_precheck env method cd); [discriminate|].
  destruct (PaymentGateway.process_payment env (Order.final_amount order) method cd)
    as [[st msg] txn].
  intros H. injection H as <- <-. cbn.
  rewrite lookup_insert_eq. repeat split; reflexivity.
Qed.

(** A successful outcome carries the transaction id made for the call. *)
Lemma process_payment_success_txn env amount method cd :
  fst (fst (PaymentGateway.process_payment env amount method cd)) = SUCCESS ->
  snd (PaymentGateway.process_payment env amount method cd)
  = Some (new_transaction_id env).
Proof.
  unfold PaymentGateway.process_payment.
  destruct (PrimFloat.leb amount 0); [discriminate|].
  destruct (negb (mem method get_supported_payment_methods)); [discriminate|].
  destruct (is_card_method method && truthy cd).
  - destruct (validate_card_details env (default ∅ cd)) as [ok msg].
    destruct ok; cbn [negb]; [intros _; apply select_outcome_transaction_id
                             | discriminate].
  - intros _. apply select_outcome_transaction_id.
Qed.

Lemma status_eqb_success st : status_eqb st SUCCESS = true -> st = SUCCESS.
Proof. destruct st; cbn; congruence. Qed.

(** C2 fails on the code: after [process_payment] has succeeded, the order
    is "confirmed" with payment status "paid" and holds the transaction id,
    and [cancel_order] on it goes through without calling the gateway: the
    result has no refund and the payment status ends as "cancelled". *)
Theorem paid_order_cancelled_without_refund
    (env env' : Env) (s : Session) (order : Order.t) (method : string)
    (cd : option (gmap string Py.value)) (res : PaymentResult) (s1 : Session) :
  CheckoutService.process_payment env s order method cd = (inr res, s1) ->
  pr_success res = true ->
  exists o1 r s2,
    get_order_details s1 (Order.id order) (Order.user_id order) = Some o1
    /\ Order.payment_status o1 = "paid"%string
    /\ Order.order_status o1 = "confirmed"%string
    /\ Order.transaction_id o1 = Some (new_transaction_id env)
    /\ cancel_order env' s1 (Order.id order) (Order.user_id order) = (inr r, s2)
    /\ cr_refund_result r = None
    /\ Order.payment_status <$> orders (working s2) !! Order.id order
       = Some "cancelled"%string.
Proof.
  intros Hpay Hok.
  destruct (process_payment_inr _ _ _ _ _ _ _ Hpay) as (Hs & _ & _ & Hord & _).
  rewrite Hok in Hs. symmetry in Hs.
  pose proof (status_eqb_success _ Hs) as Hst.
  rewrite (process_payment_success_txn _ _ _ _ Hst), Hs in Hord.
  change (String.eqb (new_transaction_id env) EmptyString) with false in Hord.
  set (o1 := Order.update order "paid" (Some (new_transaction_id env)) "confirmed") in *.
  assert (Hget : get_order_details s1 (Order.id order) (Order.user_id order) = Some o1).
  { unfold get_order_details. rewrite Hord. subst o1; cbn.
    rewrite Z.eqb_refl. reflexivity. }
  destruct (cancel_order env' s1 (Order.id order) (Order.user_id order))
    as [[e|r] s2] eqn:Hcancel.
  { exfalso. revert Hcancel. unfold cancel_order. rewrite Hget.
    subst o1; cbn. discriminate. }
  destruct (cancel_order_inr _ _ _ _ _ _ Hcancel) as (o & Hget' & Hrr & Hord' & _).
  rewrite Hget in Hget'. injection Hget' as <-.
  exists o1, r, s2. repeat split; try reflexivity; try assumption.
  rewrite Hord', Hrr. reflexivity.
Qed.

Lemma paid_order_cancelled_without_refund_witness :
  exists res s1 r s2,
    CheckoutService.process_payment Scenario.env_ok
      (Scenario.session_with (Scenario.an_order "processing" "pending"))
      (Scenario.an_order "processing" "pending") "upi" None = (inr res, s1)
    /\ pr_success res = true
    /\ cancel_order Scenario.env_ok s1 1 1 = (inr r, s2)
    /\ cr_refund_result r = None
    /\ Order.payment_status <$> orders (working s2) !! 1 = Some "cancelled"%string.
Proof.
  destruct (CheckoutService.process_payment Scenario.env_ok
      (Scenario.session_with (Scenario.an_order "processing" "pending"))
      (Scenario.an_order "processing" "pending") "upi" None)
    as [[e|res] s1] eqn:Hpay;
    [vm_compute in Hpay; discriminate Hpay|].
  assert (Hok : pr_success res = true).
  { vm_compute in Hpay. injection Hpay as <- _. reflexivity. }
  destruct (paid_order_cancelled_without_refund Scenario.env_ok Scenario.env_ok
              _ _ _ _ _ _ Hpay Hok)
    as (o1 & r & s2 & _ & _ & _ & _ & Hcancel & Hnone & Hstatus).
  exists res, s1, r, s2. repeat split; assumption.
Defined.

(** C3, as stated, fails: Alice's confirmed order with payment status
    "success" is cancelled on a day the gateway fails the refund; the refund
    recorded is "failed" and yet the order's payment status becomes
    "refunded". *)
Lemma refund_failure_counterexample :
  ~ (forall env s order_id user_id r s' rr o',
       cancel_order env s order_id user_id = (inr r, s') ->
       cr_refund_result r = Some rr ->
       orders (working s') !! order_id = Some o' ->
       (Order.payment_status o' = "refunded"%string
        <-> rr_status rr = "refunded"%string)).
Proof.
  intros H.
  specialize (H Scenario.env_refund_fails
                (Scenario.session_with (Scenario.an_order "confirmed" "success")) 1 1).
  destruct (cancel_order _ _ 1 1) as [[e|r] s'] eqn:Hcancel;
    vm_compute in Hcancel; [discriminate Hcancel|].
  injection Hcancel as <- <-.
  specialize (H _ _ _ _ eq_refl eq_refl eq_refl).
  destruct H as [H _]. specialize (H eq_refl). discriminate H.
Qed.

(** C3, amended: a cancellation that goes through attempts a refund exactly
    when the order's payment status was "success"; the payment status
    afterwards is "refunded" whenever a refund was attempted, whatever the
    gateway reported (its status is kept in the result only), and
    "cancelled" otherwise; the order status becomes "cancelled"; and every
    product gets back the quantities of the order's items that name it. *)
Theorem cancel_order_effects
    (env : Env) (s : Session) (order_id user_id : Z) (r : CancelResult)
    (s' : Session) :
  cancel_order env s order_id user_id = (inr r, s') ->
  exists o o',
    get_order_details s order_id user_id = Some o
    /\ orders (working s') !! order_id = Some o'
    /\ Order.order_status o' = "cancelled"%string
    /\ (Order.payment_status o = "success"%string ->
        exists rr,
          cr_refund_result r = Some rr
          /\ rr_status rr
             = status_value (fst (refund_payment env (Order.transaction_id o)
                                    (Order.final_amount o)))
          /\ rr_amount rr = Order.final_amount o
          /\ Order.payment_status o' = "refunded"%string)
    /\ (Order.payment_status o <> "success"%string ->
        cr_refund_result r = None
        /\ Order.payment_status o' = "cancelled"%string)
    /\ (forall pid,
          Product.stock <$> products (working s') !! pid
          = (fun p => Product.stock p
                      + Spec.restored (items_of_order (working s) order_id) pid)
              <$> products (working s) !! pid)
    /\ committed s' = working s'.
Proof.
  intros Hcancel.
  destruct (cancel_order_inr _ _ _ _ _ _ Hcancel)
    as (o & Hget & Hrr & Hord & Hprod & _ & Hcommit).
  eexists o, _. split; [exact Hget|]. split; [exact Hord|].
  split; [reflexivity|]. split; [|split; [|split]].
  - intros Hs. apply String.eqb_eq in Hs. rewrite Hs in Hrr.
    eexists. split; [exact Hrr|]. rewrite Hrr. repeat split; reflexivity.
  - intros Hs. apply String.eqb_neq in Hs. rewrite Hs in Hrr.
    rewrite Hrr. split; reflexivity.
  - intros pid. rewrite Hprod.
    destruct (products (working s) !! pid); reflexivity.
  - exact Hcommit.
Qed.

Lemma cancel_order_effects_witness :
  exists r s',
    cancel_order Scenario.env_refund_fails
      (Scenario.session_with (Scenario.an_order "confirmed" "success")) 1 1
    = (inr r, s')
    /\ Order.payment_status <$> orders (working s') !! 1 = Some "refunded"%string
    /\ Product.stock <$> products (working s') !! 10 = Some 5.
Proof.
  destruct (cancel_order Scenario.env_refund_fails
      (Scenario.session_with (Scenario.an_order "confirmed" "success")) 1 1)
    as [[e|r] s'] eqn:Hcancel;
    [vm_compute in Hcancel; discriminate Hcancel|].
  destruct (cancel_order_effects _ _ _ _ _ _ Hcancel)
    as (o & o' & Hget & Hord & _ & Hsucc & _ & Hstock & _).
  exists r, s'. split; [reflexivity|].
  injection Hget as <-.
  destruct (Hsucc eq_refl) as (rr & _ & _ & _ & Hps).
  split; [rewrite Hord; cbn; rewrite Hps; reflexivity|].
  rewrite Hstock. reflexivity.
Defined.

End Cancellation.

(** ** The checkout sequence *)

Section Checkout.

Import PaymentGateway Db CheckoutService.

(** Creating the items of an order touches the items and the products. *)
Lemma fold_create_item_frame order_id l : forall d,
  orders (fold_left (create_item order_id) l d) = orders d
  /\ carts (fold_left (create_item order_id) l d) = carts d
  /\ users (fold_left (create_item order_id) l d) = users d.
Proof.
  induction l as [|i l IH]; intros d; cbn [fold_left]; [auto|].
  destruct (IH (create_item order_id d i)) as (-> & -> & ->).
  repeat split; reflexivity.
Qed.

(** An order that [create_order] returns is committed, pending and in
    processing, and the cart is as it was. *)
Lemma create_order_inr env s user cv totals sa ba pm notes order s1 :
  create_order env s user cv totals sa ba pm notes = (inr order, s1) ->
  Order.order_status order = "processing"%string
  /\ Order.payment_status order = "pending"%string
  /\ Order.transaction_id order = None
  /\ Order.user_id order = User.id user
  /\ orders (working s1) !! Order.id order = Some order
  /\ carts (working s1) = carts (working s)
  /\ committed s1 = working s1.
Proof.
  unfold create_order.
  destruct (order_number_taken _ _); [discriminate|].
  destruct (Py.int_of_float _) as [msg|points]; [discriminate|].
  intros H. injection H as <- <-.
  cbn [Order.order_status Order.payment_status Order.transaction_id Order.user_id
       Order.id working committed commit write users set_users orders carts].
  set (d1 := set_orders (working s) _).
  destruct (fold_create_item_frame (next_id (orders (working s))) (valid_items cv) d1)
    as (Ho & Hc & _).
  rewrite Ho, Hc. subst d1. cbn [orders carts set_orders].
  rewrite lookup_insert_eq. repeat split; reflexivity.
Qed.

(** When [create_order] raises, nothing has been committed. *)
Lemma create_order_inl env s user cv totals sa ba pm notes e s1 :
  create_order env s user cv totals sa ba pm notes = (inl e, s1) ->
  committed s1 = committed s.
Proof.
  unfold create_order.
  destruct (order_number_taken _ _).
  - intros H. injection H as _ <-. reflexivity.
  - destruct (Py.int_of_float _) as [msg|points]; [|discriminate].
    intros H. injection H as _ <-. reflexivity.
Qed.

Lemma handle_session e s :
  snd (handle e s) = rollback s
  /\ exists msg ty, fst (handle e s) = Failure msg ty.
Proof. destruct e; cbn; eauto. Qed.

(** The part of the rollback guarantee that does hold: a checkout that
    fails in validation or in order creation leaves the database as it
    was. *)
Lemma checkout_failure_before_commit env s user sa ba pm cd notes :
  (match validate_cart_items s (User.id user) with
   | inl _ => True
   | inr cv =>
       valid_items cv = []
       \/ exists e,
            fst (create_order env s user cv
                   (calculate_order_totals cv user sa ba) sa ba pm notes) = inl e
   end) ->
  result_success (fst (complete_checkout env s user sa ba pm cd notes)) = false
  /\ committed (snd (complete_checkout env s user sa ba pm cd notes)) = committed s
  /\ working (snd (complete_checkout env s user sa ba pm cd notes)) = committed s.
Proof.
  unfold complete_checkout.
  destruct (validate_cart_items s (User.id user)) as [e|cv].
  - intros _. destruct e; cbn; auto.
  - intros [Hnil|[e He]].
    + rewrite Hnil. cbn; auto.
    + destruct (valid_items cv) as [|v vs]; [cbn; auto|].
      destruct (create_order env s user cv _ sa ba pm notes) as [[e'|order] s1] eqn:Hc;
        [|discriminate He].
      apply create_order_inl in Hc.
      destruct e'; cbn; rewrite Hc; auto.
Qed.

(** C1 fails on the code: once [create_order] has returned, its commit has
    made the order and the stock decrements permanent; when
    [process_payment] then raises, [complete_checkout] returns its failure
    result after a rollback that undoes nothing: the database holds the new
    order and everything else [create_order] wrote. *)
Theorem payment_error_leaves_order_committed
    (env : Env) (s : Session) (user : User.t) (sa ba pm : string)
    (cd : option (gmap string Py.value)) (notes : option string)
    (cv : Validation) (order : Order.t) (s1 s2 : Session) (e : exn) :
  validate_cart_items s (User.id user) = inr cv ->
  valid_items cv <> [] ->
  create_order env s user cv (calculate_order_totals cv user sa ba) sa ba pm notes
    = (inr order, s1) ->
  CheckoutService.process_payment env s1 order pm cd = (inl e, s2) ->
  exists msg ty s',
    complete_checkout env s user sa ba pm cd notes = (Failure msg ty, s')
    /\ committed s' = working s1
    /\ orders (committed s') !! Order.id order = Some order.
Proof.
  intros Hval Hne Hcreate Hpay.
  destruct (create_order_inr _ _ _ _ _ _ _ _ _ _ _ Hcreate)
    as (_ & _ & _ & _ & Hord & _ & Hcommit).
  assert (Hs2 : s2 = s1).
  { revert Hpay. unfold CheckoutService.process_payment.
    destruct (payment_precheck env pm cd).
    - intros H. injection H as _ <-. reflexivity.
    - destruct (PaymentGateway.process_payment _ _ _ _) as [[st m] t]. discriminate. }
  subst s2.
  unfold complete_checkout. rewrite Hval.
  destruct (valid_items cv) as [|v vs]; [contradiction|].
  rewrite Hcreate, Hpay.
  destruct (handle_session e s1) as (Hsnd & msg & ty & Hfst).
  exists msg, ty, (rollback s1).
  split; [rewrite <- Hsnd, <- Hfst; apply surjective_pairing|].
  cbn [committed rollback]. rewrite Hcommit. split; [reflexivity | exact Hord].
Qed.

Lemma payment_error_leaves_order_committed_witness :
  exists s' o,
    complete_checkout Scenario.env_ok Scenario.fresh Scenario.alice
      Scenario.address Scenario.address "credit_card" None None
    = (Failure "Payment processing failed: Card details required for card payments"
         "checkout_error", s')
    /\ orders (committed Scenario.fresh) !! 1 = None
    /\ orders (committed s') !! 1 = Some o
    /\ Product.stock <$> products (committed Scenario.fresh) !! 10 = Some 5
    /\ Product.stock <$> products (committed s') !! 10 = Some 3.
Proof.
  destruct (validate_cart_items Scenario.fresh 1) as [e|cv] eqn:Hval;
    [vm_compute in Hval; discriminate Hval|].
  assert (Hne : valid_items cv <> []).
  { vm_compute in Hval. injection Hval as <-. discriminate. }
  destruct (create_order Scenario.env_ok Scenario.fresh Scenario.alice cv
              (calculate_order_totals cv Scenario.alice Scenario.address
                 Scenario.address)
              Scenario.address Scenario.address "credit_card" None)
    as [[e|order] s1] eqn:Hcreate.
  { vm_compute in Hval. injection Hval as <-.
    vm_compute in Hcreate. discriminate Hcreate. }
  destruct (CheckoutService.process_payment Scenario.env_ok s1 order
              "credit_card" None) as [[e|res] s2] eqn:Hpay.
  2:{ revert Hpay. unfold CheckoutService.process_payment.
      cbn [payment_precheck]. vm_compute. discriminate. }
  destruct (payment_error_leaves_order_committed Scenario.env_ok Scenario.fresh
              Scenario.alice Scenario.address Scenario.address "credit_card"
              None None cv order s1 s2 e Hval Hne Hcreate Hpay)
    as (msg & ty & s' & Hrun & Hcommitted & Hord).
  exists s', order.
  assert (Hfst : fst (complete_checkout Scenario.env_ok Scenario.fresh Scenario.alice
                   Scenario.address Scenario.address "credit_card" None None)
                 = Failure
                     "Payment processing failed: Card details required for card payments"
                     "checkout_error") by (vm_compute; reflexivity).
  assert (Hid : Order.id order = 1).
  { vm_compute in Hval. injection Hval as <-.
    vm_compute in Hcreate. injection Hcreate as <- _. reflexivity. }
  assert (Hstock : Product.stock <$> products (working s1) !! 10 = Some 3).
  { vm_compute in Hval. injection Hval as <-.
    vm_compute in Hcreate. injection Hcreate as _ <-. reflexivity. }
  rewrite Hrun in Hfst |- *. cbn [fst] in Hfst. rewrite Hfst.
  rewrite Hid in Hord. rewrite Hcommitted in Hord |- *.
  repeat split; try assumption; reflexivity.
Defined.

(** C4, as stated, fails: when the gateway declines Alice's payment the
    order does not stay "pending": its payment status is the gateway's
    "failed". *)
Lemma declined_payment_counterexample :
  ~ (forall env s user sa ba pm cd notes order_id order_number amount pr items s' o,
       complete_checkout env s user sa ba pm cd notes
         = (Completed false order_id order_number amount pr items, s') ->
       orders (working s') !! order_id = Some o ->
       carts (working s') = carts (working s)
       /\ Order.order_status o = "processing"%string
       /\ Order.payment_status o = "pending"%string).
Proof.
  intros H.
  specialize (H Scenario.env_declined Scenario.fresh Scenario.alice
                Scenario.address Scenario.address "upi"%string None None).
  destruct (complete_checkout _ _ _ _ _ _ _ _) as [res s'] eqn:Hrun.
  vm_compute in Hrun. injection Hrun as <- <-.
  destruct (H _ _ _ _ _ _ _ eq_refl eq_refl) as (_ & _ & Hps).
  discriminate Hps.
Qed.

(** C4, amended: when the gateway declines the payment (no exception, the
    checkout completes with [success = False]), the cart is not cleared, the
    order keeps [order_status] "processing" and its [payment_status] becomes
    the gateway's reported status, "failed"; this is what the database
    holds. *)
Theorem declined_payment_keeps_cart
    (env : Env) (s : Session) (user : User.t) (sa ba pm : string)
    (cd : option (gmap string Py.value)) (notes : option string)
    (order_id : Z) (order_number : string) (amount : float)
    (pr : PaymentResult) (items : list ResultItem) (s' : Session) :
  complete_checkout env s user sa ba pm cd notes
    = (Completed false order_id order_number amount pr items, s') ->
  carts (committed s') = carts (working s)
  /\ pr_success pr = false
  /\ pr_status pr = "failed"%string
  /\ committed s' = working s'
  /\ exists o,
       orders (committed s') !! order_id = Some o
       /\ Order.order_status o = "processing"%string
       /\ Order.payment_status o = "failed"%string.
Proof.
  unfold complete_checkout.
  destruct (validate_cart_items s (User.id user)) as [e|cv];
    [destruct e; discriminate|].
  destruct (valid_items cv) as [|v vs] eqn:Hv; [discriminate|]. rewrite <- Hv.
  destruct (create_order env s user cv _ sa ba pm notes) as [[e|order] s1] eqn:Hcreate;
    [destruct e; discriminate|].
  destruct (CheckoutService.process_payment env s1 order pm cd)
    as [[e|res] s2] eqn:Hpay; [destruct e; discriminate|].
  intros H. injection H as Hsucc <- _ _ <- _ Hs'.
  rewrite Hsucc in Hs'. subst s2.
  destruct (create_order_inr _ _ _ _ _ _ _ _ _ _ _ Hcreate)
    as (Hos & _ & _ & _ & _ & Hcarts & _).
  destruct (process_payment_inr _ _ _ _ _ _ _ Hpay)
    as (Hs & Hst & _ & Hord & Hcarts' & _ & _ & Hcommit).
  rewrite Hsucc in Hs. symmetry in Hs.
  destruct (process_payment_status env (Order.final_amount order) pm cd) as [Hg|Hg];
    rewrite Hg in Hs, Hst, Hord; [discriminate Hs|].
  cbn [status_eqb status_value] in Hst, Hord.
  rewrite Hcommit, Hcarts', Hcarts.
  repeat split; try assumption.
  eexists. split; [exact Hord|]. split; [exact Hos | reflexivity].
Qed.

Lemma declined_payment_keeps_cart_witness :
  exists order_number amount pr items s',
    complete_checkout Scenario.env_declined Scenario.fresh Scenario.alice
      Scenario.address Scenario.address "upi" None None
    = (Completed false 1 order_number amount pr items, s')
    /\ carts (committed s') = carts Scenario.shop
    /\ Order.payment_status <$> orders (committed s') !! 1 = Some "failed"%string
    /\ Order.order_status <$> orders (committed s') !! 1 = Some "processing"%string.
Proof.
  destruct (complete_checkout Scenario.env_declined Scenario.fresh Scenario.alice
              Scenario.address Scenario.address "upi" None None)
    as [res s'] eqn:Hrun.
  destruct res as [success order_id order_number amount pr items|msg ty];
    [|vm_compute in Hrun; discriminate Hrun].
  assert (Hshape : success = false /\ order_id = 1).
  { vm_compute in Hrun. injection Hrun as <- <- _ _ _ _ _. split; reflexivity. }
  destruct Hshape as [-> ->].
  destruct (declined_payment_keeps_cart _ _ _ _ _ _ _ _ _ _ _ _ _ _ Hrun)
    as (Hcarts & _ & _ & _ & o & Hord & Hos & Hps).
  exists order_number, amount, pr, items, s'.
  split; [reflexivity|]. split; [exact Hcarts|].
  rewrite Hord. cbn. rewrite Hos, Hps. split; reflexivity.
Defined.

End Checkout.

(** ** More on the payment gateway *)

Section GatewayFacts.

Import PaymentGateway.




(** X2: [refund_payment] reports REFUNDED exactly when the transaction id
    starts with "TXN-", the amount is not [<= 0] and the draw falls below
    0.95; in every other case it reports FAILED. *)
Theorem refund_payment_refunded
    (env : Env) (transaction_id : option string) (amount : float) :
  (fst (refund_payment env transaction_id amount) = REFUNDED
   <-> ((exists t, transaction_id = Some t /\ Py.startswith "TXN-" t = true)
        /\ PrimFloat.leb amount 0 = false
        /\ PrimFloat.ltb (refund_random env) 0.95 = true))
  /\ (fst (refund_payment env transaction_id amount) = REFUNDED
      \/ fst (refund_payment env transaction_id amount) = FAILED).
Proof.
  unfold refund_payment.
  destruct transaction_id as [t|].
  2:{ split; [|right; reflexivity].
      split; [discriminate | intros ((t & H & _) & _); discriminate H]. }
  destruct (String.eqb_spec t EmptyString) as [->|Hne]; cbn [orb].
  { split; [|right; reflexivity].
    split; [discriminate | intros ((t & H & Hp) & _)].
    injection H as <-. discriminate Hp. }
  destruct (Py.startswith "TXN-" t) eqn:Hpre; cbn [negb].
  2:{ split; [|right; reflexivity].
      split; [discriminate | intros ((t' & H & Hp) & _)].
      injection H as <-. congruence. }
  destruct (PrimFloat.leb amount 0);
    [split; [split; [discriminate | intros (_ & H & _); discriminate H]
            | right; reflexivity]|].
  destruct (PrimFloat.ltb (refund_random env) 0.95).
  - split; [|left; reflexivity].
    split; [intros _; eauto | reflexivity].
  - split; [|right; reflexivity].
    split; [discriminate | intros (_ & _ & H); discriminate H].
Qed.

Lemma refund_payment_refunded_witness :
  fst (refund_payment Scenario.env_ok (Some "TXN-20261101-0000BBBB"%string)
         688.9375%float) = REFUNDED.
Proof.
  apply (proj1 (refund_payment_refunded Scenario.env_ok
                  (Some "TXN-20261101-0000BBBB"%string) 688.9375%float)).
  split; [eexists; split; reflexivity | split; reflexivity].
Defined.

Lemma new_transaction_id_format env :
  String.eqb (new_transaction_id env) EmptyString = false
  /\ Py.startswith "TXN-" (new_transaction_id env) = true.
Proof.
  unfold new_transaction_id. cbn. split; [reflexivity|].
  destruct (String.append (today env) _); reflexivity.
Qed.



(** X4: a transaction id that [process_payment] returned with SUCCESS is
    always well formed for [refund_payment]: a refund of the same amount is
    never turned down as "Invalid transaction ID" or "Invalid refund
    amount"; it is REFUNDED or "Refund processing failed" as the refund draw
    decides. *)
Theorem refund_of_successful_payment
    (env env' : Env) (amount : float) (method : string)
    (cd : option (gmap string Py.value)) :
  fst (fst (process_payment env amount method cd)) = SUCCESS ->
  refund_payment env' (snd (process_payment env amount method cd)) amount
  = if PrimFloat.ltb (refund_random env') 0.95
    then (REFUNDED,
          String.append "Refund of "
            (String.append currency_mark
               (String.append (Py.format_2f amount) " processed successfully")))
    else (FAILED, "Refund processing failed"%string).
Proof.
  intros Hok.
  rewrite (process_payment_success_txn _ _ _ _ Hok).
  assert (Hpos : PrimFloat.leb amount 0 = false).
  { revert Hok. unfold process_payment.
    destruct (PrimFloat.leb amount 0); [discriminate | reflexivity]. }
  unfold refund_payment.
  destruct (new_transaction_id_format env) as [-> ->]. cbn [orb negb].
  rewrite Hpos. reflexivity.
Qed.

Lemma refund_of_successful_payment_witness :
  refund_payment Scenario.env_refund_fails
    (snd (process_payment Scenario.env_ok 688.9375%float "upi" None))
    688.9375%float
  = (FAILED, "Refund processing failed"%string).
Proof.
  exact (refund_of_successful_payment Scenario.env_ok Scenario.env_refund_fails
           688.9375%float "upi"%string None eq_refl).
Defined.

End GatewayFacts.

(** ** More on cart validation and payment through the service *)

Section ServiceFacts.

Import PaymentGateway Db CheckoutService.




Lemma fold_validate_init d l :
  fold_left (validate_step d) l
    {| valid_items := []; invalid_items := [];
       total_amount := 0%float; item_count := 0 |}
  = Spec.validation d l.
Proof. rewrite fold_validate_step. reflexivity. Qed.

Lemma validate_cart_items_inr s user_id cv :
  validate_cart_items s user_id = inr cv ->
  user_cart (working s) user_id <> []
  /\ cv = Spec.validation (working s) (user_cart (working s) user_id).
Proof.
  unfold validate_cart_items.
  destruct (user_cart (working s) user_id) as [|c l]; [discriminate|].
  intros H. split; [discriminate|].
  rewrite <- (fold_validate_init (working s) (c :: l)).
  injection H as <-. reflexivity.
Qed.



(** What passing the checks of the service means for the gateway. *)
Lemma payment_precheck_none env method cd :
  payment_precheck env method cd = None ->
  mem method get_supported_payment_methods = true
  /\ Spec.card_details_rejected env method cd = false.
Proof.
  unfold payment_precheck, Spec.card_details_rejected.
  destruct (mem method get_supported_payment_methods); cbn [negb]; [|discriminate].
  destruct (is_card_method method); cbn [andb].
  - destruct (truthy cd); cbn [negb]; [|discriminate].
    destruct (validate_card_details env (default ∅ cd)) as [ok msg].
    destruct ok; cbn [negb fst]; [auto | discriminate].
  - intros _. auto.
Qed.

Lemma gateway_after_precheck env amount method cd :
  payment_precheck env method cd = None ->
  PrimFloat.leb amount 0 = false ->
  PaymentGateway.process_payment env amount method cd
  = select_outcome env (new_transaction_id env).
Proof.
  intros Hpre Hpos. apply payment_precheck_none in Hpre.
  destruct Hpre as [Hsup Hrej].
  unfold PaymentGateway.process_payment. rewrite Hpos, Hsup. cbn [negb].
  unfold Spec.card_details_rejected in Hrej.
  destruct (is_card_method method && truthy cd); [|reflexivity].
  destruct (validate_card_details env (default ∅ cd)) as [ok msg].
  destruct ok; [reflexivity | discriminate Hrej].
Qed.



Lemma select_outcome_success_eqb env t :
  status_eqb (fst (fst (select_outcome env t))) SUCCESS
  = PrimFloat.ltb (random_value env) success_rate
  /\ (status_eqb (fst (fst (select_outcome env t))) SUCCESS = false ->
      fst (fst (select_outcome env t)) = FAILED).
Proof.
  unfold select_outcome.
  destruct (PrimFloat.ltb (random_value env) success_rate);
    [split; [reflexivity | discriminate]|].
  destruct (PrimFloat.ltb (random_value env)
              (PrimFloat.add success_rate failure_rate));
    split; reflexivity.
Qed.

(** X7: when the service's [process_payment] returns for an order with a
    positive [final_amount], the gateway cannot have turned the call down
    before the draw: the result is the outcome draw, and the transaction id
    made for the call is both returned and stored on the order, whether the
    payment succeeded or failed. *)
Theorem process_payment_records_transaction_id
    (env : Env) (s : Session) (order : Order.t) (method : string)
    (cd : option (gmap string Py.value)) (res : PaymentResult) (s1 : Session) :
  CheckoutService.process_payment env s order method cd = (inr res, s1) ->
  PrimFloat.ltb 0 (Order.final_amount order) = true ->
  pr_transaction_id res = Some (new_transaction_id env)
  /\ pr_success res = PrimFloat.ltb (random_value env) success_rate
  /\ exists o1,
       orders (committed s1) !! Order.id order = Some o1
       /\ Order.transaction_id o1 = Some (new_transaction_id env)
       /\ Order.payment_status o1
          = (if pr_success res then "paid" else "failed")%string
       /\ Order.order_status o1
          = (if pr_success res then "confirmed"%string
             else Order.order_status order).
Proof.
  intros Hpay Hpos.
  destruct (process_payment_inr _ _ _ _ _ _ _ Hpay)
    as (Hs & _ & Ht & Hord & _ & _ & _ & Hcommit).
  assert (Hpre : payment_precheck env method cd = None).
  { revert Hpay. unfold CheckoutService.process_payment.
    destruct (payment_precheck env method cd); [discriminate | reflexivity]. }
  rewrite (gateway_after_precheck _ _ _ _ Hpre (positive_not_le _ Hpos))
    in Hs, Ht, Hord.
  rewrite select_outcome_transaction_id in Ht, Hord.
  destruct (new_transaction_id_format env) as [Hne _]. rewrite Hne in Hord.
  destruct (select_outcome_success_eqb env (new_transaction_id env)) as [Hst Hfail].
  split; [exact Ht|]. split; [rewrite Hs; exact Hst|].
  rewrite Hcommit. eexists. split; [exact Hord|]. rewrite Hs. cbn.
  destruct (status_eqb _ SUCCESS) eqn:Hb.
  - repeat split; reflexivity.
  - rewrite (Hfail eq_refl). repeat split; reflexivity.
Qed.

Lemma process_payment_records_transaction_id_witness :
  exists res s1,
    CheckoutService.process_payment Scenario.env_declined
      (Scenario.session_with (Scenario.an_order "processing" "pending"))
      (Scenario.an_order "processing" "pending") "credit_card"
      (Some Scenario.good_card) = (inr res, s1)
    /\ pr_transaction_id res = Some "TXN-20261103-9F8E7D6C"%string
    /\ pr_success res = false.
Proof.
  destruct (CheckoutService.process_payment Scenario.env_declined
      (Scenario.session_with (Scenario.an_order "processing" "pending"))
      (Scenario.an_order "processing" "pending") "credit_card"
      (Some Scenario.good_card)) as [[e|res] s1] eqn:Hpay;
    [vm_compute in Hpay; discriminate Hpay|].
  destruct (process_payment_records_transaction_id _ _ _ _ _ _ _ Hpay eq_refl)
    as (Ht & Hs & _).
  exists res, s1. split; [reflexivity|]. split; [exact Ht | exact Hs].
Defined.

End ServiceFacts.

(** ** Orders: creation, stock and cancellation *)

Section OrderFacts.

Import PaymentGateway Db CheckoutService Notions.

(** The next auto-increment key is above every key in use. *)
Lemma next_id_above {A} (m : gmap Z A) k : is_Some (m !! k) -> k < next_id m.
Proof.
  unfold next_id.
  enough (H : 0 <= map_fold (fun k (_ : A) acc => Z.max k acc) 0 m
              /\ forall k, is_Some (m !! k) ->
                           k <= map_fold (fun k (_ : A) acc => Z.max k acc) 0 m).
  { intros Hk. apply (proj2 H) in Hk. lia. }
  apply (map_fold_weak_ind
           (fun r (m : gmap Z A) => 0 <= r /\ forall k, is_Some (m !! k) -> k <= r)).
  - split; [lia|]. intros j [x Hx]. rewrite lookup_empty in Hx. discriminate Hx.
  - intros i x m' r _ [Hr IH]. split; [lia|].
    intros j Hj. destruct (Z.eq_dec i j) as [->|Hne]; [lia|].
    rewrite lookup_insert_ne in Hj by exact Hne. apply IH in Hj. lia.
Qed.

Lemma next_id_fresh {A} (m : gmap Z A) : m !! next_id m = None.
Proof.
  destruct (m !! next_id m) as [x|] eqn:H; [|reflexivity].
  assert (Hlt : next_id m < next_id m) by (apply next_id_above; eauto). lia.
Qed.

Lemma fold_create_item_items order_id l : forall d,
  order_items (fold_left (create_item order_id) l d)
  = order_items d ++ map (item_row order_id) l.
Proof.
  induction l as [|v l IH]; intros d; cbn [fold_left map].
  - rewrite app_nil_r. reflexivity.
  - rewrite IH. cbn [create_item order_items set_products set_order_items].
    rewrite <- app_assoc. reflexivity.
Qed.

Lemma set_stock_sub_0 p : Product.set_stock p (Product.stock p - 0) = p.
Proof. destruct p; unfold Product.set_stock; cbn. rewrite Z.sub_0_r. reflexivity. Qed.

(** The loop of [create_order]: the stock of each product goes down by the
    quantity the valid lines order of it. *)
Lemma fold_create_item_products order_id l : forall d pid,
  products (fold_left (create_item order_id) l d) !! pid
  = (fun p => Product.set_stock p (Product.stock p - ordered l pid))
      <$> products d !! pid.
Proof.
  induction l as [|v l IH]; intros d pid; cbn [fold_left ordered foldr].
  - destruct (products d !! pid) as [p|]; cbn; [|reflexivity].
    rewrite set_stock_sub_0. reflexivity.
  - rewrite IH. fold (ordered l pid).
    cbn [create_item products set_products set_order_items].
    destruct (Z.eqb_spec (Product.id (product v)) pid) as [Heq|Hne].
    + rewrite Heq. rewrite lookup_alter_eq.
      destruct (products d !! pid) as [p|]; cbn; [|reflexivity].
      unfold Product.set_stock; cbn. do 2 f_equal. lia.
    + rewrite lookup_alter_ne by exact Hne. reflexivity.
Qed.

(** The working store [create_order] leaves when it returns. *)
Lemma create_order_working env s user cv totals sa ba pm notes order s1 :
  create_order env s user cv totals sa ba pm notes = (inr order, s1) ->
  exists points d2,
    Py.int_of_float (PrimFloat.div (final_amount totals) 10) = inr points
    /\ Order.id order = next_id (orders (working s))
    /\ d2 = fold_left (create_item (Order.id order)) (valid_items cv)
              (set_orders (working s)
                 (<[Order.id order := order]> (orders (working s))))
    /\ working s1
       = set_users d2
           (<[User.id user :=
                {| User.id := User.id user;
                   User.loyalty_score := User.loyalty_score user + points |}]>
              (users d2))
    /\ committed s1 = working s1.
Proof.
  unfold create_order.
  destruct (order_number_taken _ _); [discriminate|].
  destruct (Py.int_of_float _) as [msg|points]; [discriminate|].
  intros H. injection H as <- <-.
  eexists points, _. repeat split; reflexivity.
Qed.

(** X8: when [create_order] returns, the order has a key no order had, the
    other orders are as they were, one item row per valid line has been
    appended, the stock of every product has gone down by the quantity
    ordered of it, the user has gained [int(final_amount / 10)] points, and
    all of it is committed. *)
Theorem create_order_effects
    (env : Env) (s : Session) (user : User.t) (cv : Validation) (totals : Totals)
    (sa ba pm : string) (notes : option string) (order : Order.t) (s1 : Session) :
  create_order env s user cv totals sa ba pm notes = (inr order, s1) ->
  orders (working s) !! Order.id order = None
  /\ orders (working s1) !! Order.id order = Some order
  /\ (forall k, k <> Order.id order ->
                orders (working s1) !! k = orders (working s) !! k)
  /\ order_items (working s1)
     = order_items (working s) ++ map (item_row (Order.id order)) (valid_items cv)
  /\ (forall pid,
        products (working s1) !! pid
        = (fun p => Product.set_stock p
                      (Product.stock p - ordered (valid_items cv) pid))
            <$> products (working s) !! pid)
  /\ (exists points,
        Py.int_of_float (PrimFloat.div (final_amount totals) 10) = inr points
        /\ users (working s1) !! User.id user
           = Some {| User.id := User.id user;
                     User.loyalty_score := User.loyalty_score user + points |})
  /\ carts (working s1) = carts (working s)
  /\ committed s1 = working s1.
Proof.
  intros H.
  destruct (create_order_working _ _ _ _ _ _ _ _ _ _ _ H)
    as (points & d2 & Hpts & Hid & Hd2 & Hw & Hc).
  destruct (fold_create_item_frame (Order.id order) (valid_items cv)
              (set_orders (working s)
                 (<[Order.id order := order]> (orders (working s)))))
    as (Ho & Hcarts & _).
  rewrite <- Hd2 in Ho, Hcarts.
  rewrite Hw. cbn [orders order_items products users carts set_users].
  rewrite Ho, Hcarts. cbn [orders carts set_orders].
  split; [rewrite Hid; apply next_id_fresh|].
  split; [apply lookup_insert_eq|].
  split; [intros k Hk; apply lookup_insert_ne; congruence|].
  split; [rewrite Hd2, fold_create_item_items; reflexivity|].
  split; [intros pid; rewrite Hd2, fold_create_item_products; reflexivity|].
  split; [exists points; split; [exact Hpts | apply lookup_insert_eq]|].
  split; [reflexivity | rewrite <- Hw; exact Hc].
Qed.

Lemma create_order_effects_witness :
  exists order s1,
    create_order Scenario.env_ok Scenario.fresh Scenario.alice
      (Spec.validation Scenario.shop (user_cart Scenario.shop 1))
      (calculate_order_totals
         (Spec.validation Scenario.shop (user_cart Scenario.shop 1))
         Scenario.alice Scenario.address Scenario.address)
      Scenario.address Scenario.address "upi" None = (inr order, s1)
    /\ Product.stock <$> products (working s1) !! 10 = Some 3.
Proof.
  destruct (create_order Scenario.env_ok Scenario.fresh Scenario.alice
      (Spec.validation Scenario.shop (user_cart Scenario.shop 1))
      (calculate_order_totals
         (Spec.validation Scenario.shop (user_cart Scenario.shop 1))
         Scenario.alice Scenario.address Scenario.address)
      Scenario.address Scenario.address "upi" None) as [[e|order] s1] eqn:Hc;
    [vm_compute in Hc; discriminate Hc|].
  exists order, s1. split; [reflexivity|].
  destruct (create_order_effects _ _ _ _ _ _ _ _ _ _ _ Hc)
    as (_ & _ & _ & _ & Hprod & _).
  rewrite Hprod. reflexivity.
Defined.

Lemma restored_item_rows order_id l pid :
  Spec.restored (map (item_row order_id) l) pid = ordered l pid.
Proof.
  induction l as [|v l IH]; [reflexivity|].
  cbn [map Spec.restored ordered foldr item_row OrderItem.product_id
       OrderItem.quantity].
  fold (Spec.restored (map (item_row order_id) l) pid). fold (ordered l pid).
  rewrite IH. reflexivity.
Qed.

Lemma items_of_new_order d order_id l :
  items_reference_orders d ->
  orders d !! order_id = None ->
  List.filter (fun i => OrderItem.order_id i =? order_id)
    (order_items d ++ map (item_row order_id) l)
  = map (item_row order_id) l.
Proof.
  intros Href Hfresh. rewrite List.filter_app.
  assert (Hold : List.filter (fun i => OrderItem.order_id i =? order_id)
                   (order_items d) = []).
  { specialize (fun i Hi => Href i Hi). revert Href.
    induction (order_items d) as [|i items IH]; intros Href; [reflexivity|].
    cbn [List.filter].
    destruct (Z.eqb_spec (OrderItem.order_id i) order_id) as [Heq|Hne].
    - exfalso. destruct (Href i (or_introl eq_refl)) as [o Ho].
      rewrite Heq in Ho. congruence.
    - apply IH. intros j Hj. apply Href. right. exact Hj. }
  rewrite Hold. cbn [app].
  induction l as [|v l IH]; [reflexivity|].
  cbn [map List.filter item_row OrderItem.order_id]. rewrite Z.eqb_refl.
  f_equal. exact IH.
Qed.

Lemma set_stock_back p a :
  Product.set_stock (Product.set_stock p (Product.stock p - a))
    (Product.stock (Product.set_stock p (Product.stock p - a)) + a) = p.
Proof.
  destruct p; unfold Product.set_stock; cbn. f_equal. lia.
Qed.

(** X9: an order that [create_order] has just made can be cancelled by its
    user, and the cancellation undoes the stock decrements exactly: the
    products table is the one before the order was created.  No refund is
    attempted, and the loyalty points the order earned stay with the user.
    The store is assumed to satisfy the foreign key of its order items. *)
Theorem create_then_cancel_restores_stock
    (env env' : Env) (s : Session) (user : User.t) (cv : Validation)
    (totals : Totals) (sa ba pm : string) (notes : option string)
    (order : Order.t) (s1 : Session) :
  items_reference_orders (working s) ->
  create_order env s user cv totals sa ba pm notes = (inr order, s1) ->
  exists r s2,
    cancel_order env' s1 (Order.id order) (User.id user) = (inr r, s2)
    /\ cr_refund_result r = None
    /\ products (working s2) = products (working s)
    /\ products (committed s2) = products (working s)
    /\ users (working s2) = users (working s1).
Proof.
  intros Href Hcreate.
  destruct (create_order_inr _ _ _ _ _ _ _ _ _ _ _ Hcreate)
    as (Hos & Hps & _ & Huid & Hord & _ & _).
  destruct (create_order_working _ _ _ _ _ _ _ _ _ _ _ Hcreate)
    as (points & d2 & _ & Hid & Hd2 & Hw & _).
  assert (Hget : get_order_details s1 (Order.id order) (User.id user) = Some order).
  { unfold get_order_details. rewrite Hord, Huid, Z.eqb_refl. reflexivity. }
  destruct (cancel_order env' s1 (Order.id order) (User.id user))
    as [[e|r] s2] eqn:Hcancel.
  { exfalso. revert Hcancel. unfold cancel_order. rewrite Hget, Hos, Hps.
    cbn. discriminate. }
  exists r, s2. split; [reflexivity|].
  assert (Husers : users (working s2) = users (working s1)).
  { revert Hcancel. unfold cancel_order. rewrite Hget, Hos. cbn [String.eqb orb negb].
    change (("processing" =? "processing")%string) with true. cbn [orb negb].
    intros H. injection H as _ <-. cbn [working commit write].
    match goal with
    | |- users (fold_left restore_item ?l ?d) = _ =>
        destruct (fold_restore_frame l d) as (_ & _ & Hu & _); rewrite Hu
    end.
    reflexivity. }
  destruct (cancel_order_inr _ _ _ _ _ _ Hcancel)
    as (o & Hget' & Hrr & _ & Hprod & _ & Hcommit).
  rewrite Hget in Hget'. injection Hget' as <-.
  rewrite Hps in Hrr. change (("pending" =? "success")%string) with false in Hrr.
  split; [exact Hrr|].
  assert (Hitems : items_of_order (working s1) (Order.id order)
                   = map (item_row (Order.id order)) (valid_items cv)).
  { unfold items_of_order. rewrite Hw. cbn [order_items set_users].
    rewrite Hd2, fold_create_item_items. cbn [order_items set_orders].
    apply items_of_new_order; [exact Href|].
    rewrite Hid. apply next_id_fresh. }
  assert (Heq : products (working s2) = products (working s)).
  { apply map_eq. intros pid.
    rewrite Hprod, Hitems, restored_item_rows.
    rewrite Hw. cbn [products set_users].
    rewrite Hd2, fold_create_item_products. cbn [products set_orders].
    destruct (products (working s) !! pid) as [p|]; cbn; [|reflexivity].
    rewrite set_stock_back. reflexivity. }
  split; [exact Heq|]. split; [rewrite Hcommit; exact Heq | exact Husers].
Qed.

Lemma create_then_cancel_restores_stock_witness :
  exists order s1 r s2,
    create_order Scenario.env_ok Scenario.fresh Scenario.alice
      (Spec.validation Scenario.shop (user_cart Scenario.shop 1))
      (calculate_order_totals
         (Spec.validation Scenario.shop (user_cart Scenario.shop 1))
         Scenario.alice Scenario.address Scenario.address)
      Scenario.address Scenario.address "upi" None = (inr order, s1)
    /\ cancel_order Scenario.env_ok s1 (Order.id order) 1 = (inr r, s2)
    /\ products (working s2) = products Scenario.shop.
Proof.
  destruct (create_order Scenario.env_ok Scenario.fresh Scenario.alice
      (Spec.validation Scenario.shop (user_cart Scenario.shop 1))
      (calculate_order_totals
         (Spec.validation Scenario.shop (user_cart Scenario.shop 1))
         Scenario.alice Scenario.address Scenario.address)
      Scenario.address Scenario.address "upi" None) as [[e|order] s1] eqn:Hc;
    [vm_compute in Hc; discriminate Hc|].
  assert (Href : items_reference_orders (working Scenario.fresh)).
  { intros i Hi. destruct Hi. }
  destruct (create_then_cancel_restores_stock Scenario.env_ok Scenario.env_ok
              _ _ _ _ _ _ _ _ _ _ Href Hc)
    as (r & s2 & Hcancel & _ & Hprod & _).
  exists order, s1, r, s2. split; [reflexivity|]. split; [exact Hcancel | exact Hprod].
Defined.

Lemma ordered_absent d cart pid :
  products_keyed d ->
  ~ In pid (map Cart.product_id cart) ->
  ordered (Spec.valid_of d cart) pid = 0.
Proof.
  intros Hkey. induction cart as [|c cart IH]; intros Hnot; [reflexivity|].
  cbn [map] in Hnot. rewrite valid_of_cons. unfold Spec.classify.
  assert (Hrest : ordered (Spec.valid_of d cart) pid = 0).
  { apply IH. intros Hin. apply Hnot. right. exact Hin. }
  destruct (products d !! Cart.product_id c) as [p|] eqn:Hp; [|exact Hrest].
  destruct (Product.stock p <? Cart.quantity c); [exact Hrest|].
  cbn [ordered foldr product cart_item]. fold (ordered (Spec.valid_of d cart) pid).
  rewrite (Hkey _ _ Hp).
  destruct (Z.eqb_spec (Cart.product_id c) pid) as [Heq|Hne]; [|exact Hrest].
  exfalso. apply Hnot. left. exact Heq.
Qed.

(** With one line per product, no more is ordered of a product than its
    stock. *)
Lemma ordered_le_stock d cart pid p :
  products_keyed d ->
  distinct_products cart ->
  products d !! pid = Some p ->
  0 <= Product.stock p ->
  ordered (Spec.valid_of d cart) pid <= Product.stock p.
Proof.
  intros Hkey Hnodup Hp Hstock. unfold distinct_products in Hnodup.
  induction cart as [|c cart IH]; [exact Hstock|].
  cbn [map] in Hnodup. inversion Hnodup as [|x l Hnot Hnodup']; subst.
  rewrite valid_of_cons. unfold Spec.classify.
  destruct (products d !! Cart.product_id c) as [pc|] eqn:Hpc; [|apply IH; exact Hnodup'].
  destruct (Z.ltb_spec (Product.stock pc) (Cart.quantity c)) as [Hlt|Hge];
    [apply IH; exact Hnodup'|].
  cbn [ordered foldr product cart_item]. fold (ordered (Spec.valid_of d cart) pid).
  rewrite (Hkey _ _ Hpc).
  destruct (Z.eqb_spec (Cart.product_id c) pid) as [Heq|Hne];
    [|apply IH; exact Hnodup'].
  rewrite Heq in *.
  rewrite (ordered_absent d cart pid Hkey
             (fun Hin => Hnot (proj2 (list_elem_of_In _ _) Hin))).
  rewrite Hp in Hpc. injection Hpc as <-. lia.
Qed.

Lemma create_order_stock_non_negative
    env s user cv totals sa ba pm notes order s1 :
  products_keyed (working s) ->
  stock_non_negative (working s) ->
  distinct_products (user_cart (working s) (User.id user)) ->
  validate_cart_items s (User.id user) = inr cv ->
  create_order env s user cv totals sa ba pm notes = (inr order, s1) ->
  stock_non_negative (working s1).
Proof.
  intros Hkey Hnn Hdist Hval Hcreate pid p' Hp'.
  apply validate_cart_items_inr in Hval. destruct Hval as [_ ->].
  destruct (create_order_working _ _ _ _ _ _ _ _ _ _ _ Hcreate)
    as (points & d2 & _ & _ & Hd2 & Hw & _).
  rewrite Hw in Hp'. cbn [products set_users] in Hp'.
  rewrite Hd2, fold_create_item_products in Hp'. cbn [products set_orders] in Hp'.
  destruct (products (working s) !! pid) as [p|] eqn:Hp; [|discriminate Hp'].
  cbn in Hp'. injection Hp' as <-. cbn [Product.stock Product.set_stock].
  cbn [valid_items Spec.validation].
  pose proof (ordered_le_stock _ _ _ _ Hkey Hdist Hp (Hnn _ _ Hp)) as Hle.
  unfold ordered in Hle. lia.
Qed.

(** X10: when every cart line of the user names a different product, a
    checkout never drives a stock below zero: if no stock is negative
    before [complete_checkout], none is afterwards, in the database and in
    the session, whatever the outcome of the call. *)
Theorem checkout_keeps_stock_non_negative
    (env : Env) (s : Session) (user : User.t) (sa ba pm : string)
    (cd : option (gmap string Py.value)) (notes : option string) :
  products_keyed (working s) ->
  stock_non_negative (working s) ->
  stock_non_negative (committed s) ->
  distinct_products (user_cart (working s) (User.id user)) ->
  stock_non_negative (committed (snd (complete_checkout env s user sa ba pm cd notes)))
  /\ stock_non_negative (working (snd (complete_checkout env s user sa ba pm cd notes))).
Proof.
  intros Hkey Hw Hc Hdist. unfold complete_checkout.
  destruct (validate_cart_items s (User.id user)) as [e|cv] eqn:Hval;
    [destruct e; cbn; auto|].
  destruct (valid_items cv) as [|v vs] eqn:Hv; [cbn; auto|]. rewrite <- Hv.
  destruct (create_order env s user cv _ sa ba pm notes) as [[e|order] s1] eqn:Hcreate.
  { apply create_order_inl in Hcreate. destruct e; cbn; rewrite Hcreate; auto. }
  pose proof (create_order_stock_non_negative _ _ _ _ _ _ _ _ _ _ _
                Hkey Hw Hdist Hval Hcreate) as Hw1.
  destruct (create_order_inr _ _ _ _ _ _ _ _ _ _ _ Hcreate)
    as (_ & _ & _ & _ & _ & _ & Hc1).
  destruct (CheckoutService.process_payment env s1 order pm cd)
    as [[e|res] s2] eqn:Hpay.
  { assert (s2 = s1) as ->.
    { revert Hpay. unfold CheckoutService.process_payment.
      destruct (payment_precheck env pm cd).
      - intros H. injection H as _ <-. reflexivity.
      - destruct (PaymentGateway.process_payment _ _ _ _) as [[st m] t]. discriminate. }
    destruct e; cbn; rewrite Hc1; auto. }
  destruct (process_payment_inr _ _ _ _ _ _ _ Hpay)
    as (_ & _ & _ & _ & _ & Hprod & _ & Hc2).
  assert (Hw2 : stock_non_negative (working s2)).
  { intros pid p Hp. rewrite Hprod in Hp. exact (Hw1 _ _ Hp). }
  destruct (pr_success res); cbn [snd].
  - cbn [committed working commit write]. split; exact Hw2.
  - rewrite Hc2. split; exact Hw2.
Qed.

Lemma checkout_keeps_stock_non_negative_witness :
  stock_non_negative
    (committed (snd (complete_checkout Scenario.env_ok Scenario.fresh Scenario.alice
                       Scenario.address Scenario.address "upi" None None))).
Proof.
  refine (proj1 (checkout_keeps_stock_non_negative Scenario.env_ok Scenario.fresh
                   Scenario.alice Scenario.address Scenario.address "upi"%string
                   None None _ _ _ _)).
  - intros pid p Hp. cbn in Hp.
    destruct (Z.eq_dec pid 10) as [->|Hne].
    + vm_compute in Hp. injection Hp as <-. reflexivity.
    + change (products Scenario.shop) with ({[ 10 := Scenario.gown ]} : gmap Z Product.t) in Hp.
      rewrite lookup_singleton_ne in Hp by congruence. discriminate Hp.
  - intros pid p Hp. cbn in Hp.
    destruct (Z.eq_dec pid 10) as [->|Hne].
    + vm_compute in Hp. injection Hp as <-. vm_compute. discriminate.
    + change (products Scenario.shop) with ({[ 10 := Scenario.gown ]} : gmap Z Product.t) in Hp.
      rewrite lookup_singleton_ne in Hp by congruence. discriminate Hp.
  - intros pid p Hp. cbn in Hp.
    destruct (Z.eq_dec pid 10) as [->|Hne].
    + vm_compute in Hp. injection Hp as <-. vm_compute. discriminate.
    + change (products Scenario.shop) with ({[ 10 := Scenario.gown ]} : gmap Z Product.t) in Hp.
      rewrite lookup_singleton_ne in Hp by congruence. discriminate Hp.
  - unfold distinct_products. cbn. repeat constructor.
    intros Hin. inversion Hin.
Defined.

(** The hypothesis of X10 is needed: two lines for the same product are
    each checked against the full stock, and the order takes both. *)
Example duplicate_lines_oversell :
  let shop :=
    set_carts Scenario.shop
      [ {| Cart.id := 1; Cart.user_id := 1; Cart.product_id := 10; Cart.quantity := 3 |};
        {| Cart.id := 2; Cart.user_id := 1; Cart.product_id := 10; Cart.quantity := 3 |} ] in
  Product.stock
    <$> products
          (committed
             (snd (complete_checkout Scenario.env_ok
                     {| committed := shop; working := shop |} Scenario.alice
                     Scenario.address Scenario.address "upi" None None))) !! 10
  = Some (-1).
Proof. vm_compute. reflexivity. Qed.

Lemma get_order_details_Some s order_id user_id o :
  get_order_details s order_id user_id = Some o
  <-> orders (working s) !! order_id = Some o /\ Order.user_id o = user_id.
Proof.
  unfold get_order_details.
  destruct (orders (working s) !! order_id) as [o'|].
  - destruct (Z.eqb_spec (Order.user_id o') user_id) as [Heq|Hne].
    + split; [intros H; injection H as <-; auto | intros [H _]; exact H].
    + split; [discriminate | intros [H Hu]; injection H as <-; contradiction].
  - split; [discriminate | intros [H _]; discriminate H].
Qed.

(** X11: cancellation is final: once [cancel_order] has gone through, a
    second [cancel_order] on the same order raises "Cannot cancel order in
    current status" and changes nothing, so stock is never restored
    twice by it. *)
Theorem cancel_order_twice
    (env env' : Env) (s : Session) (order_id user_id : Z)
    (r : CancelResult) (s' : Session) :
  cancel_order env s order_id user_id = (inr r, s') ->
  cancel_order env' s' order_id user_id
  = (inl (CheckoutError "Cannot cancel order in current status"), s').
Proof.
  intros Hcancel.
  destruct (cancel_order_inr _ _ _ _ _ _ Hcancel) as (o & Hget & _ & Hord & _).
  apply get_order_details_Some in Hget. destruct Hget as [_ Hu].
  unfold cancel_order.
  assert (Hget' : get_order_details s' order_id user_id
                  = Some (Order.update o
                            (match cr_refund_result r with
                             | Some _ => "refunded"
                             | None => "cancelled"
                             end)%string (Order.transaction_id o) "cancelled")).
  { apply get_order_details_Some. split; [exact Hord | exact Hu]. }
  rewrite Hget'. reflexivity.
Qed.

Lemma cancel_order_twice_witness :
  exists r s',
    cancel_order Scenario.env_ok
      (Scenario.session_with (Scenario.an_order "confirmed" "paid")) 1 1
    = (inr r, s')
    /\ cancel_order Scenario.env_ok s' 1 1
       = (inl (CheckoutError "Cannot cancel order in current status"), s').
Proof.
  destruct (cancel_order Scenario.env_ok
      (Scenario.session_with (Scenario.an_order "confirmed" "paid")) 1 1)
    as [[e|r] s'] eqn:Hcancel; [vm_compute in Hcancel; discriminate Hcancel|].
  exists r, s'. split; [reflexivity|].
  exact (cancel_order_twice Scenario.env_ok Scenario.env_ok _ _ _ _ _ Hcancel).
Defined.

(** X12: [cancel_order] only acts on an order of the calling user: when the
    order id is unknown or the order belongs to someone else, it raises
    "Order not found" and changes nothing. *)
Theorem cancel_order_not_owner
    (env : Env) (s : Session) (order_id user_id : Z) :
  (forall o, orders (working s) !! order_id = Some o -> Order.user_id o <> user_id) ->
  cancel_order env s order_id user_id
  = (inl (CheckoutError "Order not found"), s).
Proof.
  intros Hnot. unfold cancel_order.
  destruct (get_order_details s order_id user_id) as [o|] eqn:Hget; [|reflexivity].
  apply get_order_details_Some in Hget. destruct Hget as [Ho Hu].
  exfalso. exact (Hnot o Ho Hu).
Qed.

Lemma cancel_order_not_owner_witness :
  cancel_order Scenario.env_ok
    (Scenario.session_with (Scenario.an_order "confirmed" "paid")) 1 2
  = (inl (CheckoutError "Order not found"),
     Scenario.session_with (Scenario.an_order "confirmed" "paid")).
Proof.
  apply cancel_order_not_owner.
  intros o Ho. vm_compute in Ho. injection Ho as <-. discriminate.
Defined.

(** X13: what a cancellation leaves alone: the users (loyalty points
    earned by the order are not taken back), the carts, the order items,
    every other order, and on the cancelled order everything but the two
    statuses. *)
Theorem cancel_order_frame
    (env : Env) (s : Session) (order_id user_id : Z)
    (r : CancelResult) (s' : Session) :
  cancel_order env s order_id user_id = (inr r, s') ->
  users (working s') = users (working s)
  /\ carts (working s') = carts (working s)
  /\ order_items (working s') = order_items (working s)
  /\ (forall k, k <> order_id ->
                orders (working s') !! k = orders (working s) !! k)
  /\ exists o o',
       orders (working s) !! order_id = Some o
       /\ orders (working s') !! order_id = Some o'
       /\ o' = Order.update o (Order.payment_status o') (Order.transaction_id o)
                 (Order.order_status o').
Proof.
  intros Hcancel.
  destruct (cancel_order_inr _ _ _ _ _ _ Hcancel) as (o & Hget & _ & Hord & _).
  pose proof Hget as Hget0.
  apply get_order_details_Some in Hget. destruct Hget as [Ho _].
  revert Hcancel. unfold cancel_order. rewrite Hget0.
  destruct (negb _); [discriminate|].
  intros H. injection H as _ <-. cbn [working commit write].
  match goal with
  | |- context [fold_left restore_item ?l ?d] =>
      destruct (fold_restore_frame l d) as (Hfo & Hfc & Hfu & Hfi)
  end.
  rewrite Hfo, Hfc, Hfu, Hfi. cbn [orders carts users order_items set_orders].
  repeat split; try reflexivity.
  - intros k Hk. apply lookup_insert_ne. congruence.
  - exists o. eexists. split; [exact Ho|]. split; [apply lookup_insert_eq|].
    reflexivity.
Qed.

Lemma cancel_order_frame_witness :
  exists r s',
    cancel_order Scenario.env_ok
      (Scenario.session_with (Scenario.an_order "confirmed" "paid")) 1 1
    = (inr r, s')
    /\ users (working s') = users (Scenario.shop_with (Scenario.an_order "confirmed" "paid")).
Proof.
  destruct (cancel_order Scenario.env_ok
      (Scenario.session_with (Scenario.an_order "confirmed" "paid")) 1 1)
    as [[e|r] s'] eqn:Hcancel; [vm_compute in Hcancel; discriminate Hcancel|].
  exists r, s'. split; [reflexivity|].
  exact (proj1 (cancel_order_frame _ _ _ _ _ _ Hcancel)).
Defined.

End OrderFacts.

(** ** More on the checkout sequence *)

Section CheckoutFacts.

Import PaymentGateway Db CheckoutService Notions.





(** X15: [complete_checkout] never leaves a transaction open: for every
    input the session it returns has nothing uncommitted, and a failure
    result carries one of the two error types. *)
Theorem complete_checkout_closes_transaction
    (env : Env) (s : Session) (user : User.t) (sa ba pm : string)
    (cd : option (gmap string Py.value)) (notes : option string) :
  committed (snd (complete_checkout env s user sa ba pm cd notes))
  = working (snd (complete_checkout env s user sa ba pm cd notes))
  /\ match fst (complete_checkout env s user sa ba pm cd notes) with
     | Failure _ error_type =>
         error_type = "checkout_error"%string \/ error_type = "system_error"%string
     | Completed success _ _ _ payment_result _ =>
         success = pr_success payment_result
     end.
Proof.
  unfold complete_checkout.
  destruct (validate_cart_items s (User.id user)) as [e|cv];
    [destruct e; cbn; auto|].
  destruct (valid_items cv) as [|v vs] eqn:Hv; [cbn; auto|]. rewrite <- Hv.
  destruct (create_order env s user cv _ sa ba pm notes) as [[e|order] s1] eqn:Hcreate;
    [destruct e; cbn; auto|].
  destruct (CheckoutService.process_payment env s1 order pm cd)
    as [[e|res] s2] eqn:Hpay; [destruct e; cbn; auto|].
  destruct (process_payment_inr _ _ _ _ _ _ _ Hpay) as (_ & _ & _ & _ & _ & _ & _ & Hc).
  cbn [fst snd]. split; [|reflexivity].
  destruct (pr_success res); [reflexivity | exact Hc].
Qed.

(** The system error of a checkout comes from order creation only. *)
Example order_number_conflict_is_system_error :
  let taken :=
    set_orders Scenario.shop
      {[ 7 := Order.update
                {| Order.id := 7; Order.order_number := "LUX-20261103-A1B2C3D4";
                   Order.user_id := 2;
                   Order.total_amount := 0%float; Order.tax_amount := 0%float;
                   Order.shipping_amount := 0%float;
                   Order.discount_amount := 0%float;
                   Order.final_amount := 0%float;
                   Order.payment_status := "pending"; Order.payment_method := "upi";
                   Order.transaction_id := None;
                   Order.shipping_address := Scenario.address;
                   Order.billing_address := Scenario.address;
                   Order.order_status := "processing"; Order.notes := None |}
                "pending" None "processing" ]} in
  complete_checkout Scenario.env_ok {| committed := taken; working := taken |}
    Scenario.alice Scenario.address Scenario.address "upi" None None
  = (Failure
       "Checkout failed: duplicate key value violates unique constraint"
       "system_error",
     {| committed := taken; working := taken |}).
Proof. vm_compute. reflexivity. Qed.

End CheckoutFacts.

(** ** The routes of main.py *)

Section RouteFacts.

Import PaymentGateway Db CheckoutService Notions.

(** X16: when no line of the user's cart is valid, the checkout is a
    "checkout_error" ("Cart is empty" for an empty cart, "No valid items in
    cart" otherwise), no order is made, and the session is rolled back. *)
Theorem checkout_without_valid_items
    (env : Env) (s : Session) (user : User.t) (sa ba pm : string)
    (cd : option (gmap string Py.value)) (notes : option string) :
  Spec.valid_of (working s) (user_cart (working s) (User.id user)) = [] ->
  complete_checkout env s user sa ba pm cd notes
  = (Failure
       (match user_cart (working s) (User.id user) with
        | [] => "Cart is empty"
        | _ => "No valid items in cart"
        end) "checkout_error",
     rollback s).
Proof.
  intros Hnone. unfold complete_checkout.
  destruct (validate_cart_items s (User.id user)) as [e|cv] eqn:Hval.
  - revert Hval. unfold validate_cart_items.
    destruct (user_cart (working s) (User.id user)); [|discriminate].
    intros H. injection H as <-. reflexivity.
  - apply validate_cart_items_inr in Hval. destruct Hval as [Hne ->].
    cbn [valid_items Spec.validation]. rewrite Hnone.
    destruct (user_cart (working s) (User.id user)); [contradiction | reflexivity].
Qed.

Lemma checkout_without_valid_items_witness :
  complete_checkout Scenario.env_ok
    (Scenario.session_with (Scenario.an_order "confirmed" "paid")) Scenario.alice
    Scenario.address Scenario.address "upi" None None
  = (Failure "Cart is empty" "checkout_error",
     rollback (Scenario.session_with (Scenario.an_order "confirmed" "paid"))).
Proof.
  exact (checkout_without_valid_items Scenario.env_ok
           (Scenario.session_with (Scenario.an_order "confirmed" "paid"))
           Scenario.alice Scenario.address Scenario.address "upi"%string None None
           eq_refl).
Defined.


(** The order a declined checkout leaves behind. *)
Lemma declined_checkout_order
    env s user sa ba pm cd notes order_id order_number amount pr items s' :
  complete_checkout env s user sa ba pm cd notes
    = (Completed false order_id order_number amount pr items, s') ->
  exists o,
    orders (committed s') !! order_id = Some o
    /\ Order.user_id o = User.id user
    /\ Order.payment_status o = "failed"%string.
Proof.
  unfold complete_checkout.
  destruct (validate_cart_items s (User.id user)) as [e|cv];
    [destruct e; discriminate|].
  destruct (valid_items cv) as [|v vs] eqn:Hv; [discriminate|]. rewrite <- Hv.
  destruct (create_order env s user cv _ sa ba pm notes) as [[e|order] s1] eqn:Hcreate;
    [destruct e; discriminate|].
  destruct (CheckoutService.process_payment env s1 order pm cd)
    as [[e|res] s2] eqn:Hpay; [destruct e; discriminate|].
  intros H. injection H as Hsucc <- _ _ _ _ Hs'.
  rewrite Hsucc in Hs'. subst s2.
  destruct (create_order_inr _ _ _ _ _ _ _ _ _ _ _ Hcreate)
    as (_ & _ & _ & Huid & _).
  destruct (process_payment_inr _ _ _ _ _ _ _ Hpay)
    as (Hs & _ & _ & Hord & _ & _ & _ & Hcommit).
  rewrite Hsucc in Hs. symmetry in Hs.
  destruct (process_payment_status env (Order.final_amount order) pm cd) as [Hg|Hg];
    rewrite Hg in Hs, Hord; [discriminate Hs|].
  rewrite Hcommit. eexists. split; [exact Hord|]. split; [exact Huid | reflexivity].
Qed.

(** X18: an order whose payment the gateway declined during checkout cannot
    be paid through the pay route: the order is no longer "pending", so for
    every method and every card details the route answers with status 500
    ("Payment already processed" wrapped by its own handler) and leaves the
    database as it is. *)
Theorem declined_order_cannot_be_paid
    (env : Env) (s : Session) (user : User.t) (sa ba pm : string)
    (cd : option (gmap string Py.value)) (notes : option string)
    (order_id : Z) (order_number : string) (amount : float)
    (pr : PaymentResult) (items : list ResultItem) (s' : Session)
    (web : Routes.Web) (env' : Env) (method : string)
    (cd' : option (gmap string Py.value)) :
  complete_checkout env s user sa ba pm cd notes
    = (Completed false order_id order_number amount pr items, s') ->
  Routes.process_payment web env' (committed s') order_id method cd' user
  = (inl (Routes.payment_system_error
            (Routes.str_http web
               {| Routes.status_code := 400;
                  Routes.detail := Routes.Text "Payment already processed" |})),
     committed s').
Proof.
  intros Hrun.
  destruct (declined_checkout_order _ _ _ _ _ _ _ _ _ _ _ _ _ _ Hrun)
    as (o & Hord & Huid & Hps).
  unfold Routes.process_payment.
  assert (Hget : get_order_details (Routes.session_of (committed s')) order_id
                   (User.id user) = Some o).
  { apply get_order_details_Some. split; [exact Hord | exact Huid]. }
  rewrite Hget, Hps. reflexivity.
Qed.

Lemma declined_order_cannot_be_paid_witness :
  exists s' e,
    snd (complete_checkout Scenario.env_declined Scenario.fresh Scenario.alice
           Scenario.address Scenario.address "upi" None None) = s'
    /\ Routes.process_payment
         RouteScenario.web
         Scenario.env_ok (committed s') 1 "upi" None Scenario.alice
       = (inl e, committed s')
    /\ Routes.status_code e = 500.
Proof.
  destruct (complete_checkout Scenario.env_declined Scenario.fresh Scenario.alice
              Scenario.address Scenario.address "upi" None None)
    as [res s'] eqn:Hrun.
  destruct res as [success order_id order_number amount pr items|msg ty];
    [|vm_compute in Hrun; discriminate Hrun].
  assert (Hshape : success = false /\ order_id = 1).
  { vm_compute in Hrun. injection Hrun as <- <- _ _ _ _ _. split; reflexivity. }
  destruct Hshape as [-> ->].
  eexists s', _. split; [reflexivity|].
  split; [exact (declined_order_cannot_be_paid _ _ _ _ _ _ _ _ _ _ _ _ _ _
                   _ Scenario.env_ok "upi"%string None Hrun) | reflexivity].
Defined.

(** X19: the pay route sends an order to the gateway at most once: it does
    so only for an order of the caller that is "pending", and when it has
    answered with a payment result, paid or failed, every later call for
    that order is turned down without a change. *)
Theorem pay_route_once
    (web web' : Routes.Web) (env env' : Env) (d d' : Store) (order_id : Z)
    (method method' : string) (cd cd' : option (gmap string Py.value))
    (user : User.t) (res : PaymentResult) :
  orders_keyed d ->
  Routes.process_payment web env d order_id method cd user = (inr res, d') ->
  (exists order,
     orders d !! order_id = Some order
     /\ Order.user_id order = User.id user
     /\ Order.payment_status order = "pending"%string)
  /\ Routes.process_payment web' env' d' order_id method' cd' user
     = (inl (Routes.payment_system_error
               (Routes.str_http web'
                  {| Routes.status_code := 400;
                     Routes.detail := Routes.Text "Payment already processed" |})),
        d').
Proof.
  intros Hkey. unfold Routes.process_payment at 1.
  destruct (get_order_details (Routes.session_of d) order_id (User.id user))
    as [order|] eqn:Hget; [|discriminate].
  destruct (String.eqb_spec (Order.payment_status order) "pending") as [Hpend|Hpend];
    cbn [negb]; [|discriminate].
  destruct (CheckoutService.process_payment env (Routes.session_of d) order method cd)
    as [[e|res'] s'] eqn:Hpay; [destruct e; discriminate|].
  intros H. injection H as <- <-.
  apply get_order_details_Some in Hget. destruct Hget as [Hord Huid].
  cbn [working Routes.session_of] in Hord.
  split; [exists order; repeat split; assumption|].
  destruct (process_payment_inr _ _ _ _ _ _ _ Hpay)
    as (_ & _ & _ & Hord' & _ & _ & _ & Hcommit).
  rewrite (Hkey _ _ Hord) in Hord'.
  unfold Routes.process_payment.
  erewrite (proj2 (get_order_details_Some (Routes.session_of (committed s'))
                     order_id (User.id user) _)).
  2:{ cbn [working Routes.session_of]. rewrite Hcommit.
      split; [exact Hord' | exact Huid]. }
  cbn [Order.payment_status Order.update].
  destruct (process_payment_status env (Order.final_amount order) method cd) as [Hg|Hg];
    rewrite Hg; reflexivity.
Qed.

Lemma pay_route_once_witness :
  exists res d' e,
    Routes.process_payment RouteScenario.web Scenario.env_declined
      (Scenario.shop_with (Scenario.an_order "processing" "pending")) 1 "upi" None
      Scenario.alice = (inr res, d')
    /\ Routes.process_payment RouteScenario.web Scenario.env_ok d' 1 "upi" None
         Scenario.alice = (inl e, d')
    /\ Routes.status_code e = 500.
Proof.
  destruct (Routes.process_payment RouteScenario.web Scenario.env_declined
      (Scenario.shop_with (Scenario.an_order "processing" "pending")) 1 "upi" None
      Scenario.alice) as [[e|res] d'] eqn:Hrun;
    [vm_compute in Hrun; discriminate Hrun|].
  assert (Hkey : orders_keyed
                   (Scenario.shop_with (Scenario.an_order "processing" "pending"))).
  { intros k o Ho. destruct (Z.eq_dec k 1) as [->|Hne].
    - vm_compute in Ho. injection Ho as <-. reflexivity.
    - cbn in Ho. rewrite lookup_singleton_ne in Ho by congruence. discriminate Ho. }
  destruct (pay_route_once RouteScenario.web RouteScenario.web _ Scenario.env_ok
              _ _ _ _ "upi"%string _ None _ _ Hkey Hrun) as [_ Hagain].
  eexists res, d', _. split; [reflexivity|]. split; [exact Hagain | reflexivity].
Defined.

(** The products a stock restoration leaves depend on the products and on
    the items only. *)
Lemma fold_restore_products_eq l d d' :
  products d = products d' ->
  products (fold_left restore_item l d) = products (fold_left restore_item l d').
Proof.
  intros Heq. apply map_eq. intros pid.
  rewrite !fold_restore_products, Heq. reflexivity.
Qed.

(** X20: the cancel route that writes the tables itself accepts and refuses
    exactly the requests [CheckoutService.cancel_order] does, with the same
    message, and leaves the same products, users, carts, items and other
    orders; on the cancelled order it differs in one column: it always
    writes payment status "refunded", also for an order that was never
    paid, and the gateway is not involved. *)
Theorem cancel_route_matches_service
    (env : Env) (d : Store) (order_id : Z) (user : User.t) :
  match cancel_order env (Routes.session_of d) order_id (User.id user),
        Routes.cancel_order_route d order_id user with
  | (inr r, s1), (inr message, d2) =>
      message = "Order cancelled successfully"%string
      /\ products d2 = products (working s1)
      /\ users d2 = users (working s1)
      /\ carts d2 = carts (working s1)
      /\ order_items d2 = order_items (working s1)
      /\ (forall k, k <> order_id -> orders d2 !! k = orders (working s1) !! k)
      /\ exists o1,
           orders (working s1) !! order_id = Some o1
           /\ orders d2 !! order_id
              = Some (Order.update o1 "refunded" (Order.transaction_id o1)
                        (Order.order_status o1))
  | (inl e, s1), (inl h, d2) =>
      Routes.detail h = Routes.Text (exn_str e)
      /\ d2 = d /\ s1 = Routes.session_of d
  | _, _ => False
  end.
Proof.
  unfold cancel_order, Routes.cancel_order_route.
  destruct (get_order_details (Routes.session_of d) order_id (User.id user))
    as [o|]; [|repeat split; reflexivity].
  destruct (negb _); [repeat split; reflexivity|].
  cbn [working commit write Routes.session_of].
  set (ps := match (if String.eqb (Order.payment_status o) "success" then _ else None)
             with Some _ => "refunded"%string | None => "cancelled"%string end).
  set (d1 := set_orders d (<[order_id := Order.update o ps _ _]> (orders d))).
  set (d1' := set_orders d (<[order_id := Order.update o "refunded" _ _]> (orders d))).
  change (items_of_order d1' order_id) with (items_of_order d1 order_id).
  destruct (fold_restore_frame (items_of_order d1 order_id) d1) as (Ho & Hc & Hu & Hi).
  destruct (fold_restore_frame (items_of_order d1 order_id) d1') as (Ho' & Hc' & Hu' & Hi').
  rewrite Ho, Hc, Hu, Hi, Ho', Hc', Hu', Hi'.
  split; [reflexivity|].
  split; [apply fold_restore_products_eq; reflexivity|].
  repeat split; try reflexivity.
  - intros k Hk. subst d1 d1'. cbn [orders set_orders].
    rewrite !lookup_insert_ne by congruence. reflexivity.
  - subst d1 d1'. cbn [orders set_orders]. eexists.
    rewrite !lookup_insert_eq. split; reflexivity.
Qed.

Lemma cancel_order_untouched env s order_id user_id r s' :
  cancel_order env s order_id user_id = (inr r, s') ->
  order_items (working s') = order_items (working s)
  /\ users (working s') = users (working s).
Proof.
  unfold cancel_order.
  destruct (get_order_details s order_id user_id) as [o|]; [|discriminate].
  destruct (negb _); [discriminate|].
  intros H. injection H as _ <-. cbn [working commit write].
  match goal with
  | |- context [fold_left restore_item ?l ?d] =>
      destruct (fold_restore_frame l d) as (_ & _ & Hu & Hi)
  end.
  rewrite Hu, Hi. split; reflexivity.
Qed.

(** X21: the admin route does not keep cancellation final: it moves a
    cancelled order back to "confirmed", after which [cancel_order] goes
    through a second time and gives the items' quantities back to the stock
    once more. *)
Theorem cancelled_order_can_be_reopened
    (env env' : Env) (s : Session) (order_id user_id : Z)
    (r : CancelResult) (s1 : Session) :
  cancel_order env s order_id user_id = (inr r, s1) ->
  exists d2 r' s3,
    Routes.update_order_status (committed s1) order_id "confirmed"
    = (inr "Order status updated successfully"%string, d2)
    /\ cancel_order env' (Routes.session_of d2) order_id user_id = (inr r', s3)
    /\ forall pid,
         Product.stock <$> products (working s3) !! pid
         = (fun p => Product.stock p
                     + 2 * Spec.restored (items_of_order (working s) order_id) pid)
             <$> products (working s) !! pid.
Proof.
  intros Hcancel.
  destruct (cancel_order_inr _ _ _ _ _ _ Hcancel)
    as (o & Hget & _ & Hord & Hprod & _ & Hcommit).
  destruct (cancel_order_untouched _ _ _ _ _ _ Hcancel) as [Hitems _].
  apply get_order_details_Some in Hget. destruct Hget as [_ Huid].
  set (o1 := Order.update o
               (match cr_refund_result r with
                | Some _ => "refunded"
                | None => "cancelled"
                end)%string (Order.transaction_id o) "cancelled") in *.
  pose (d2 := set_orders (working s1)
                (<[order_id := Order.update o1 (Order.payment_status o1)
                                 (Order.transaction_id o1) "confirmed"]>
                   (orders (working s1)))).
  assert (Hup : Routes.update_order_status (committed s1) order_id "confirmed"
                = (inr "Order status updated successfully"%string, d2)).
  { unfold Routes.update_order_status. rewrite Hcommit, Hord. reflexivity. }
  assert (Hget2 : get_order_details (Routes.session_of d2) order_id user_id
                  = Some (Order.update o1 (Order.payment_status o1)
                            (Order.transaction_id o1) "confirmed")).
  { apply get_order_details_Some. subst d2.
    cbn [working Routes.session_of orders set_orders].
    rewrite lookup_insert_eq. split; [reflexivity | exact Huid]. }
  destruct (cancel_order env' (Routes.session_of d2) order_id user_id)
    as [[e|r'] s3] eqn:Hagain.
  { exfalso. revert Hagain. unfold cancel_order. rewrite Hget2.
    cbn. discriminate. }
  exists d2, r', s3. split; [exact Hup|]. split; [exact Hagain|].
  destruct (cancel_order_inr _ _ _ _ _ _ Hagain) as (o2' & _ & _ & _ & Hprod2 & _).
  intros pid. rewrite Hprod2.
  cbn [working Routes.session_of].
  replace (items_of_order d2 order_id) with (items_of_order (working s) order_id)
    by (unfold items_of_order; subst d2; cbn [order_items set_orders];
        rewrite Hitems; reflexivity).
  replace (products d2) with (products (working s1)) by reflexivity.
  rewrite Hprod.
  destruct (products (working s) !! pid) as [p|]; cbn; [|reflexivity].
  f_equal. lia.
Qed.

Lemma cancelled_order_can_be_reopened_witness :
  exists r s1 d2 r' s3,
    cancel_order Scenario.env_ok
      (Scenario.session_with (Scenario.an_order "confirmed" "paid")) 1 1
    = (inr r, s1)
    /\ Routes.update_order_status (committed s1) 1 "confirmed"
       = (inr "Order status updated successfully"%string, d2)
    /\ cancel_order Scenario.env_ok (Routes.session_of d2) 1 1 = (inr r', s3)
    /\ Product.stock <$> products (working s3) !! 10 = Some 7.
Proof.
  destruct (cancel_order Scenario.env_ok
      (Scenario.session_with (Scenario.an_order "confirmed" "paid")) 1 1)
    as [[e|r] s1] eqn:Hcancel; [vm_compute in Hcancel; discriminate Hcancel|].
  destruct (cancelled_order_can_be_reopened Scenario.env_ok Scenario.env_ok
              _ _ _ _ _ Hcancel) as (d2 & r' & s3 & Hup & Hagain & Hstock).
  exists r, s1, d2, r', s3. repeat split; try assumption.
  rewrite Hstock. reflexivity.
Defined.






Lemma process_payment_raises_shape env s order method cd e s' :
  CheckoutService.process_payment env s order method cd = (inl e, s') ->
  exists msg, e = CheckoutError (String.append "Payment processing failed: " msg).
Proof.
  unfold CheckoutService.process_payment.
  destruct (payment_precheck env method cd) as [msg|].
  - intros H. injection H as <- _. eauto.
  - destruct (PaymentGateway.process_payment _ _ _ _) as [[st m] t]. discriminate.
Qed.

(** X23: the preview shows what the checkout charges: on the same database
    and for the same user, when the preview lists items, a checkout that
    completes reports the preview's final amount and the same lines,
    whatever addresses, method and card details it is given; the preview
    answers 500 exactly for the carts the checkout calls empty, and "no
    items" exactly for those in which the checkout finds no valid item. *)
Theorem preview_matches_checkout
    (env : Env) (d : Store) (user : User.t) (address : option string)
    (sa ba pm : string) (cd : option (gmap string Py.value))
    (notes : option string) :
  match Routes.get_checkout_preview d user address,
        fst (complete_checkout env (Routes.session_of d) user sa ba pm cd notes) with
  | inl e, result =>
      Routes.status_code e = 500
      /\ result = Failure "Cart is empty" "checkout_error"
  | inr (Routes.NoItems _), result =>
      result = Failure "No valid items in cart" "checkout_error"
  | inr (Routes.Items _ lines totals _ _ _), Completed _ _ _ amount _ items =>
      amount = final_amount totals /\ items = lines
  | inr (Routes.Items _ _ _ _ _ _), Failure message _ =>
      message <> "Cart is empty"%string /\ message <> "No valid items in cart"%string
  end.
Proof.
  unfold Routes.get_checkout_preview, complete_checkout.
  destruct (validate_cart_items (Routes.session_of d) (User.id user)) as [e|cv] eqn:Hval.
  { revert Hval. unfold validate_cart_items.
    destruct (user_cart _ _); [|discriminate].
    intros H. injection H as <-. split; reflexivity. }
  destruct (valid_items cv) as [|v vs] eqn:Hv; [reflexivity|]. rewrite <- Hv.
  destruct (create_order env (Routes.session_of d) user cv _ sa ba pm notes)
    as [[e|order] s1] eqn:Hcreate.
  { revert Hcreate. unfold create_order.
    destruct (order_number_taken _ _).
    - intros H. injection H as <- _. cbn. split; discriminate.
    - destruct (Py.int_of_float _) as [msg|pts]; [|discriminate].
      intros H. injection H as <- _. cbn. split; discriminate. }
  destruct (CheckoutService.process_payment env s1 order pm cd)
    as [[e|res] s2] eqn:Hpay.
  { destruct (process_payment_raises_shape _ _ _ _ _ _ _ Hpay) as [msg ->].
    cbn. split; discriminate. }
  cbn. split; reflexivity.
Qed.

End RouteFacts.
